(** * Shaka Fleet: fleet communication and command-delivery layer

    A shallow embedding of the device registry ([machinesDB]), the HTTP
    heartbeat ingestor, the live (WebSocket) connection manager of
    [server.js], the command dispatchers ([sync-products], [stripe-config])
    and the payment-provider webhook routers (Stripe, Nayax).

    Modelling conventions.
    - JSON values are [JVal]; JS numbers are modelled by integers (no
      fractions, no NaN).  A JS object is an association list [JsObj]
      whose keys are pairwise distinct, updated in place by [obj_set].
    - [new Date()] inside one handler is one instant [now] (milliseconds);
      a [Date] is stored as [JNum now], an ISO string as [JStr (isoString now)].
    - Outcomes of the outside world (signature check, outbound HTTP calls,
      JSON parsing) are inputs of the handlers. *)

From Stdlib Require Import ZArith List String Ascii Bool Lia.
From stdpp Require Import base gmap strings pretty.
Import ListNotations.
Open Scope string_scope.

(** ** JSON values and JS objects *)

#[local] Set Warnings "-register-all".

Inductive JVal : Type :=
| JNull
| JBool (b : bool)
| JNum (z : Z)
| JStr (s : string)
| JArr (l : list JVal)
| JObj (kvs : list (string * JVal)).

Definition JsObj := list (string * JVal).

(** JS truthiness ([if (x)]): [null], [false], [0] and [""] are falsy. *)
Definition truthy (v : JVal) : bool :=
  match v with
  | JNull => false
  | JBool b => b
  | JNum z => negb (Z.eqb z 0)
  | JStr s => negb (String.eqb s "")
  | JArr _ => true
  | JObj _ => true
  end.

(** [undefined] is [None]. *)
Definition truthy_opt (o : option JVal) : bool :=
  match o with Some v => truthy v | None => false end.

Fixpoint obj_get (o : JsObj) (k : string) : option JVal :=
  match o with
  | [] => None
  | (k', v) :: r => if String.eqb k k' then Some v else obj_get r k
  end.

(** [o[k] = v]: overwrite in place, or append a new key. *)
Fixpoint obj_set (o : JsObj) (k : string) (v : JVal) : JsObj :=
  match o with
  | [] => [(k, v)]
  | (k', v') :: r => if String.eqb k k' then (k', v) :: r else (k', v') :: obj_set r k v
  end.

(** [delete o[k]]. *)
Definition obj_delete (o : JsObj) (k : string) : JsObj :=
  List.filter (fun kv => negb (String.eqb k kv.1)) o.

(** [Object.assign(acc, src)]. *)
Definition obj_assign (acc src : JsObj) : JsObj :=
  fold_left (fun a kv => obj_set a kv.1 kv.2) src acc.

Fixpoint index_entries (n : nat) (l : list JVal) : JsObj :=
  match l with
  | [] => []
  | v :: r => (pretty n, v) :: index_entries (S n) r
  end.

(** The own enumerable entries that [{...v}] copies. *)
Definition spread_entries (v : option JVal) : JsObj :=
  match v with
  | Some (JObj kvs) => kvs
  | Some (JArr l) => index_entries 0 l
  | Some (JStr s) =>
      index_entries 0 (map (fun c => JStr (String c EmptyString)) (list_ascii_of_string s))
  | _ => []
  end.

(** [{ ...a, ...b }]. *)
Definition spread2 (a b : option JVal) : JVal :=
  JObj (obj_assign (obj_assign [] (spread_entries a)) (spread_entries b)).

(** Property read [v.k] on a value that is not [null]. *)
Definition js_get (v : JVal) (k : string) : option JVal :=
  match v with JObj kvs => obj_get kvs k | _ => None end.

Definition opt_field (k : string) (o : option JVal) : JsObj :=
  match o with Some v => [(k, v)] | None => [] end.

Definition isoString (t : Z) : string := pretty t.

Definition ascii_upper (c : ascii) : ascii :=
  let n := nat_of_ascii c in
  if (97 <=? n)%nat && (n <=? 122)%nat then ascii_of_nat (n - 32) else c.

Definition toUpperCase (s : string) : string :=
  string_of_list_ascii (map ascii_upper (list_ascii_of_string s)).

(** An HTTP response: status code and JSON body. *)
Inductive HttpResp : Type := Resp (status : Z) (body : JVal).

Definition resp_body (r : HttpResp) : JVal := match r with Resp _ b => b end.

(** [NextResponse.json(x)] *)
Definition json (b : JVal) : HttpResp := Resp 200 b.

(** ** Device registry: [machinesDB] (src/lib/machines.ts) *)

Abbreviation MachinesDB := (gmap string JsObj).

(** ** Heartbeat ingestor: [POST /api/heartbeat] (unnamed/part_013) *)

Definition computeUptime (firstSeen now : Z) : string :=
  let diff := (now - firstSeen)%Z in
  let days := (diff / (1000 * 60 * 60 * 24))%Z in
  let hours := (Z.rem diff (1000 * 60 * 60 * 24) / (1000 * 60 * 60))%Z in
  let minutes := (Z.rem diff (1000 * 60 * 60) / (1000 * 60))%Z in
  pretty days +:+ "j " +:+ pretty hours +:+ "h " +:+ pretty minutes +:+ "m".

(** The record created on a device's first heartbeat. *)
Definition new_machine (machineId : string) (location : option JVal) (now : Z) : JsObj :=
  [("id", JStr machineId);
   ("name", JStr ("Station " +:+ toUpperCase machineId));
   ("status", JStr "offline");
   ("lastSeen", JNum now);
   ("uptime", JStr "0j 0h 0m");
   ("inventory", JObj []);
   ("sensors", JObj [("temp", JNum 0); ("humidity", JNum 0); ("doorOpen", JBool false)]);
   ("firmware", JStr "unknown");
   ("agentVersion", JStr "unknown");
   ("location", if truthy_opt location then default JNull location else JStr "Inconnue");
   ("firstSeen", JNum now);
   ("snapshots", JObj [])].

(** [if (x) machine.k = x;] *)
Definition set_if (x : option JVal) (k : string) (m : JsObj) : JsObj :=
  match x with
  | Some v => if truthy v then obj_set m k v else m
  | None => m
  end.

(** [request.headers.get(h) || undefined] *)
Definition header_or_undef (h : option string) : option JVal :=
  match h with
  | Some s => if String.eqb s "" then None else Some (JStr s)
  | None => None
  end.

Definition invalid_json : HttpResp := Resp 400 (JObj [("error", JStr "Invalid JSON")]).
Definition machineId_required : HttpResp := Resp 400 (JObj [("error", JStr "machineId required")]).

(** The handler after the destructuring [const { machineId, ... } = body].
    The error branch of the [try] keeps the mutations already made to
    [machinesDB]. *)
Definition heartbeat_core (db : MachinesDB)
    (machineId status sensors inventory location firmware agentVersion uptime meta
     proximity snapshots : option JVal)
    (hdrForwardedFor hdrUserAgent : option string) (now : Z) : HttpResp * MachinesDB :=
    let forwardedFor := header_or_undef hdrForwardedFor in
    let requestUserAgent := header_or_undef hdrUserAgent in
    match machineId with
    | Some (JStr mid) =>
      if String.eqb mid "" then (machineId_required, db) else
      let m0 := match db !! mid with Some m => m | None => new_machine mid location now end in
      let m1 := obj_set m0 "lastSeen" (JNum now) in
      let m2 := set_if status "status" m1 in
      let m3 := if truthy_opt sensors
                then obj_set m2 "sensors" (spread2 (obj_get m2 "sensors") sensors) else m2 in
      let m4 := set_if location "location" m3 in
      let m5 := set_if firmware "firmware" m4 in
      let m6 := set_if agentVersion "agentVersion" m5 in
      (* [if (uptime) machine.uptime = uptime;
          else machine.uptime = computeUptime(machine.firstSeen);]
         [machine.firstSeen.getTime()] throws when [firstSeen] is no [Date]. *)
      let m7o := if truthy_opt uptime then Some (set_if uptime "uptime" m6) else
                 match obj_get m6 "firstSeen" with
                 | Some (JNum firstSeen) =>
                     Some (obj_set m6 "uptime" (JStr (computeUptime firstSeen now)))
                 | _ => None
                 end in
      match m7o with
      | None => (invalid_json, <[mid := m6]> db)
      | Some m7 =>
        let m8 := set_if inventory "inventory" m7 in
        let m9 := if truthy_opt snapshots
                  then obj_set (obj_set m8 "snapshots" (default JNull snapshots))
                         "snapshotsUpdatedAt" (JStr (isoString now)) else m8 in
        let m10 := if truthy_opt proximity
                   then obj_set m9 "proximity"
                          (JObj (obj_assign (obj_assign [] (spread_entries proximity))
                                   [("updatedAt", JStr (isoString now))])) else m9 in
        let m11 := set_if meta "meta" m10 in
        let m12 := obj_set m11 "source"
                     (JObj (opt_field "forwardedFor" forwardedFor ++
                            opt_field "userAgent" requestUserAgent ++
                            [("receivedAt", JStr (isoString now))])) in
        let snapCount := if truthy_opt snapshots
                         then Z.of_nat (length (spread_entries snapshots)) else 0%Z in
        (json (JObj [("ok", JBool true);
                     ("received", JObj (opt_field "machineId" machineId ++
                                        opt_field "status" status ++
                                        opt_field "sensors" sensors ++
                                        [("inventory", JBool (truthy_opt inventory));
                                         ("snapshots", JNum snapCount);
                                         ("meta", JBool (truthy_opt meta));
                                         ("proximity", JBool (truthy_opt proximity))]))]),
         <[mid := m12]> db)
      end
    | _ => (machineId_required, db)
    end.

(** [POST /api/heartbeat].  [body] is [None] when [request.json()] throws;
    destructuring [null] throws too. *)
Definition heartbeat_post (db : MachinesDB) (body : option JVal)
    (hdrForwardedFor hdrUserAgent : option string) (now : Z) : HttpResp * MachinesDB :=
  match body with
  | None | Some JNull => (invalid_json, db)
  | Some b =>
      heartbeat_core db (js_get b "machineId") (js_get b "status") (js_get b "sensors")
        (js_get b "inventory") (js_get b "location") (js_get b "firmware")
        (js_get b "agentVersion") (js_get b "uptime") (js_get b "meta")
        (js_get b "proximity") (js_get b "snapshots") hdrForwardedFor hdrUserAgent now
  end.

(** ** Live connection manager and WebSocket heartbeats (server.js) *)

(** One WebSocket: its [readyState] (1 = OPEN, 3 = CLOSED), the [isAlive]
    flag of the ping/pong check and the handler's [machineId] variable
    ([None] is [null]/[undefined]; device ids are strings). *)
Record WsConn := mkConn {
  readyState : Z;
  isAlive : bool;
  machineId : option string
}.

(** The process state: [machinesDB], every WebSocket by identity,
    [globalThis.__wsClients] (device id -> WebSocket identity) and the
    frames sent so far (WebSocket identity, message). *)
Record Server := mkServer {
  machinesDB : MachinesDB;
  wsConns : gmap nat WsConn;
  wsClients : gmap string nat;
  sent : list (nat * JVal)
}.

Definition with_db (s : Server) (db : MachinesDB) : Server :=
  mkServer db (wsConns s) (wsClients s) (sent s).
Definition with_conns (s : Server) (cs : gmap nat WsConn) : Server :=
  mkServer (machinesDB s) cs (wsClients s) (sent s).
Definition with_clients (s : Server) (cl : gmap string nat) : Server :=
  mkServer (machinesDB s) (wsConns s) cl (sent s).
(** [ws.send(JSON.stringify(msg))] *)
Definition send (s : Server) (c : nat) (msg : JVal) : Server :=
  mkServer (machinesDB s) (wsConns s) (wsClients s) (sent s ++ [(c, msg)]).

Definition is_truthy_id (mid : option string) : bool :=
  match mid with Some m => negb (String.eqb m "") | None => false end.

Definition conn_open (s : Server) (c : nat) : bool :=
  match wsConns s !! c with Some w => Z.eqb (readyState w) 1 | None => false end.

(** [broadcastToMachine(machineId, message)]: returns whether it sent. *)
Definition broadcastToMachine (s : Server) (mid : string) (message : JVal) : bool * Server :=
  match wsClients s !! mid with
  | Some c => if conn_open s c then (true, send s c message) else (false, s)
  | None => (false, s)
  end.

(** The socket closes ([ws.close()], [ws.terminate()], remote close or
    transport error) and its ["close"] handler runs:
    [if (machineId) globalThis.__wsClients.delete(machineId);] *)
Definition on_close (s : Server) (c : nat) : Server :=
  match wsConns s !! c with
  | Some w =>
      let s1 := with_conns s (<[c := mkConn 3 (isAlive w) (machineId w)]> (wsConns s)) in
      match machineId w with
      | Some mid => if is_truthy_id (Some mid) then with_clients s1 (delete mid (wsClients s1)) else s1
      | None => s1
      end
  | None => s
  end.

(** [processHeartbeat(machineId, data)] *)
Definition processHeartbeat (s : Server) (mid : string) (data : JVal) (now : Z) : Server :=
  let db := machinesDB s in
  let d k := js_get data k in
  let m0 := match db !! mid with Some m => m | None => new_machine mid (d "location") now end in
  let m1 := obj_set m0 "lastSeen" (JNum now) in
  let m2 := set_if (d "status") "status" m1 in
  let m3 := if truthy_opt (d "sensors")
            then obj_set m2 "sensors" (spread2 (obj_get m2 "sensors") (d "sensors")) else m2 in
  let m4 := set_if (d "location") "location" m3 in
  let m5 := set_if (d "firmware") "firmware" m4 in
  let m6 := set_if (d "agentVersion") "agentVersion" m5 in
  let m7 := set_if (d "uptime") "uptime" m6 in
  let m8 := set_if (d "inventory") "inventory" m7 in
  let m9 := if truthy_opt (d "snapshots")
            then obj_set (obj_set m8 "snapshots" (default JNull (d "snapshots")))
                   "snapshotsUpdatedAt" (JStr (isoString now)) else m8 in
  let m10 := if truthy_opt (d "proximity")
             then obj_set m9 "proximity"
                    (JObj (obj_assign (obj_assign [] (spread_entries (d "proximity")))
                             [("updatedAt", JStr (isoString now))])) else m9 in
  let m11 := set_if (d "meta") "meta" m10 in
  let m12 := obj_set m11 "source"
               (JObj (opt_field "forwardedFor" (d "_forwardedFor") ++
                      opt_field "userAgent" (d "_userAgent") ++
                      [("receivedAt", JStr (isoString now)); ("transport", JStr "websocket")])) in
  let m13 := obj_set m12 "wsConnected" (JBool true) in
  (* Check for pending sync and send immediately *)
  match obj_get m13 "pendingSync" with
  | Some sync =>
      if truthy sync then
        let m14 := obj_delete m13 "pendingSync" in
        let s1 := with_db s (<[mid := m14]> db) in
        snd (broadcastToMachine s1 mid
               (JObj [("type", JStr "sync-products");
                      ("products", default JNull (js_get sync "products"));
                      ("queuedAt", default JNull (js_get sync "queuedAt"))]))
      else with_db s (<[mid := m13]> db)
  | None => with_db s (<[mid := m13]> db)
  end.

(** Events seen by the server.  [EvAuth], [EvHeartbeat] are application
    messages of that [type] on socket [c]; [EvClose] is the remote end
    closing or a transport error; [EvTick] is one run of [pingInterval]. *)
Inductive WsEvent : Type :=
| EvConnect (c : nat)
| EvPong (c : nat)
| EvAuth (c : nat) (mid : option string)
| EvHeartbeat (c : nat) (data : option JVal) (fwd ua : string) (now : Z)
| EvClose (c : nat)
| EvTick.

(** One iteration of [wss.clients.forEach] in [pingInterval]. *)
Definition tick_one (s : Server) (c : nat) : Server :=
  match wsConns s !! c with
  | Some w =>
      if Z.eqb (readyState w) 1 then
        if isAlive w then with_conns s (<[c := mkConn 1 false (machineId w)]> (wsConns s))
        else on_close s c   (* ws.terminate() *)
      else s
  | None => s
  end.

Definition tick (s : Server) : Server :=
  fold_left tick_one (map fst (map_to_list (wsConns s))) s.

Definition set_conn (s : Server) (c : nat) (w : WsConn) : Server :=
  with_conns s (<[c := w]> (wsConns s)).

Definition ws_step (s : Server) (e : WsEvent) : Server :=
  match e with
  | EvConnect c =>
      match wsConns s !! c with
      | Some _ => s
      | None => set_conn s c (mkConn 1 true None)
      end
  | EvPong c =>
      match wsConns s !! c with
      | Some w => if Z.eqb (readyState w) 1 then set_conn s c (mkConn 1 true (machineId w)) else s
      | None => s
      end
  | EvAuth c mid =>
      match wsConns s !! c with
      | Some w =>
          if Z.eqb (readyState w) 1 then
            let s1 := set_conn s c (mkConn 1 (isAlive w) mid) in
            match mid with
            | Some m =>
                if is_truthy_id mid then
                  send (with_clients s1 (<[m := c]> (wsClients s1))) c
                    (JObj [("type", JStr "auth-ok"); ("machineId", JStr m)])
                else on_close (send s1 c (JObj [("type", JStr "error"); ("error", JStr "machineId required")])) c
            | None =>
                on_close (send s1 c (JObj [("type", JStr "error"); ("error", JStr "machineId required")])) c
            end
          else s
      | None => s
      end
  | EvHeartbeat c data fwd ua now =>
      match wsConns s !! c with
      | Some w =>
          if Z.eqb (readyState w) 1 then
            match machineId w with
            | Some m =>
                if is_truthy_id (Some m) then
                  match data with
                  | None | Some JNull => s   (* [msg.data._forwardedFor = ...] throws; caught *)
                  | Some (JObj kvs) =>
                      let data' := JObj (obj_set (obj_set kvs "_forwardedFor" (JStr fwd))
                                           "_userAgent" (JStr ua)) in
                      send (processHeartbeat s m data' now) c
                        (JObj [("type", JStr "heartbeat-ack"); ("ts", JStr (isoString now))])
                  | Some v =>
                      send (processHeartbeat s m v now) c
                        (JObj [("type", JStr "heartbeat-ack"); ("ts", JStr (isoString now))])
                  end
                else send s c (JObj [("type", JStr "error"); ("error", JStr "Not authenticated")])
            | None => send s c (JObj [("type", JStr "error"); ("error", JStr "Not authenticated")])
            end
          else s
      | None => s
      end
  | EvClose c => if conn_open s c then on_close s c else s
  | EvTick => tick s
  end.

Definition ws_run (s : Server) (evs : list WsEvent) : Server := fold_left ws_step evs s.

(** [push(deviceId)] of the spec: whether [broadcastToMachine] sends. *)
Definition push (s : Server) (mid : string) (message : JVal) : bool :=
  fst (broadcastToMachine s mid message).

Definition server0 : Server := mkServer ∅ ∅ ∅ [].
(** ** Pending product sync: [GET /api/machines/:id/sync-products] *)

(** The RPi calls this to check for a pending product sync.  The handler has
    no [try]: a throw after the [delete] is a 500 with the deletion kept. *)
Definition pending_sync_get (db : MachinesDB) (mid : string) : HttpResp * MachinesDB :=
  match db !! mid with
  | None => (json (JObj [("ok", JBool true); ("pending", JBool false)]), db)
  | Some m =>
      match obj_get m "pendingSync" with
      | Some sync =>
          if truthy sync then
            let db' := <[mid := obj_delete m "pendingSync"]> db in
            match js_get sync "products" with
            | Some (JArr _) | Some (JStr _) =>
                (json (JObj [("ok", JBool true); ("pending", JBool true);
                             ("products", default JNull (js_get sync "products"));
                             ("queuedAt", default JNull (js_get sync "queuedAt"))]), db')
            | _ => (Resp 500 (JObj []), db')   (* [sync.products.length] throws *)
            end
          else (json (JObj [("ok", JBool true); ("pending", JBool false)]), db)
      | None => (json (JObj [("ok", JBool true); ("pending", JBool false)]), db)
      end
  end.

(** ** Command dispatchers *)

Record Session := mkSession { email : string; role : string }.

(** Transports a dispatcher tries, in order. *)
Inductive Attempt : Type :=
| ALive
| ADirectHttp (url : string) (timeout_ms : Z)
| AQueue (slot : string).

(** Outcome of an outbound [fetch(...)] followed by [res.json()]:
    a network error, the 10 s abort or a non-JSON body, or the JSON body. *)
Inductive FetchOutcome : Type :=
| FetchError
| FetchJson (data : JVal).

Definition transport_of (r : HttpResp) : option JVal := js_get (resp_body r) "transport".

Definition error_resp (code : Z) (msg : string) : HttpResp :=
  Resp code (JObj [("ok", JBool false); ("error", JStr msg)]).

(** The two named pending-command slots of a device and their writes
    [machine.pendingSync = {...}] and [machine.pendingStripeConfig = {...}]. *)
Inductive QueueOp : Type :=
| QSync (cmd : JVal)
| QStripe (cmd : JVal).

Definition queue_command (machine : JsObj) (q : QueueOp) : JsObj :=
  match q with
  | QSync cmd => obj_set machine "pendingSync" cmd
  | QStripe cmd => obj_set machine "pendingStripeConfig" cmd
  end.

Definition pendingSync_cmd (products : list JVal) (now : Z) (me : Session) : JVal :=
  JObj [("products", JArr products); ("queuedAt", JStr (isoString now));
        ("queuedBy", JStr (email me))].

(** [POST /api/machines/:id/sync-products].  [body] is [None] when
    [request.json()] throws (caught: 500). *)
Definition sync_products_post (s : Server) (me : option Session) (mid : string)
    (body : option JVal) (now : Z) : HttpResp * Server * list Attempt :=
  match me with
  | None => (error_resp 401 "Non authentifié", s, [])
  | Some me =>
    if negb (String.eqb (role me) "admin") then (error_resp 403 "Accès refusé", s, []) else
    match machinesDB s !! mid with
    | None => (error_resp 404 "Machine introuvable", s, [])
    | Some machine =>
      match body with
      | None | Some JNull => (Resp 500 (JObj [("ok", JBool false)]), s, [])
      | Some b =>
        match js_get b "products" with
        | Some (JArr products) =>
          (* Try WebSocket push first (instant delivery) *)
          let '(pushed, s1) := broadcastToMachine s mid
                 (JObj [("type", JStr "sync-products"); ("products", JArr products);
                        ("queuedAt", JStr (isoString now))]) in
          if pushed then
            (json (JObj [("ok", JBool true); ("transport", JStr "websocket")]), s1, [ALive])
          else
            (* Fallback: store pending sync *)
            let machine' := queue_command machine (QSync (pendingSync_cmd products now me)) in
            (json (JObj [("ok", JBool true); ("transport", JStr "http-pending")]),
             with_db s1 (<[mid := machine']> (machinesDB s1)), [ALive; AQueue "pendingSync"])
        | _ => (error_resp 400 "products array requis", s, [])
        end
      end
    end
  end.

(** The typed fields of a [stripe-config] request body. *)
Record StripeConfigBody := mkStripeBody {
  b_secretKey : option string;
  b_readerId : option string;
  b_simulation : option bool;
  b_decimalPlaces : option Z;
  b_apiTimeout : option Z;
  b_vendResultTimeout : option Z;
  b_preauthMaxAmount : option Z
}.

Record StripeConfig := mkStripeConfig {
  secretKey : string;
  readerId : string;
  simulation : bool;
  decimalPlaces : Z;
  apiTimeout : Z;
  vendResultTimeout : Z;
  preauthMaxAmount : Z;
  updatedAt : string;
  updatedBy : string
}.

Definition str_includes (s sub : string) : bool :=
  match String.index 0 sub s with Some _ => true | None => false end.

Definition resolve_config (b : StripeConfigBody) (existingSecretKey : option string)
    (now : Z) (me : Session) : StripeConfig :=
  let resolvedSecretKey :=
    match b_secretKey b with
    | Some k => if negb (String.eqb k "") && negb (str_includes k "****") then k
                else default "" existingSecretKey
    | None => default "" existingSecretKey
    end in
  mkStripeConfig resolvedSecretKey (default "" (b_readerId b)) (default true (b_simulation b))
    (default 2%Z (b_decimalPlaces b)) (default 15%Z (b_apiTimeout b))
    (default 30%Z (b_vendResultTimeout b)) (default 5000%Z (b_preauthMaxAmount b))
    (isoString now) (email me).

Definition nl : string := String (ascii_of_nat 10) EmptyString.

Definition buildEnvFile (config : StripeConfig) (mid : string) : string :=
  String.concat nl
    ["# Stripe Terminal Configuration";
     "# Auto-generated by Fleet Manager";
     "# Updated: " +:+ updatedAt config;
     "";
     "STRIPE_SECRET_KEY=" +:+ secretKey config;
     "STRIPE_READER_ID=" +:+ readerId config;
     "MACHINE_ID=" +:+ mid;
     "STRIPE_SIMULATION=" +:+ (if simulation config then "1" else "0");
     "STRIPE_DECIMAL_PLACES=" +:+ pretty (decimalPlaces config);
     "STRIPE_API_TIMEOUT=" +:+ pretty (apiTimeout config);
     "STRIPE_VEND_RESULT_TIMEOUT=" +:+ pretty (vendResultTimeout config);
     "STRIPE_PREAUTH_MAX_AMOUNT=" +:+ pretty (preauthMaxAmount config);
     "STRIPE_STATE_FILE=/tmp/shaka_stripe_state.json";
     ""].

(** [ip.split(":")[0]] *)
Fixpoint before_colon (s : string) : string :=
  match s with
  | EmptyString => EmptyString
  | String c r => if Ascii.eqb c ":" then EmptyString else String c (before_colon r)
  end.

(** [machine?.source?.forwardedFor || machine?.source?.ip || machine?.meta?.ip] *)
Definition rpi_address (machine : option JsObj) : option JVal :=
  let src k := match machine with
               | Some m => match obj_get m "source" with Some v => js_get v k | None => None end
               | None => None end in
  let meta_ip := match machine with
                 | Some m => match obj_get m "meta" with Some v => js_get v "ip" | None => None end
                 | None => None end in
  if truthy_opt (src "forwardedFor") then src "forwardedFor"
  else if truthy_opt (src "ip") then src "ip"
  else meta_ip.




(** ** Webhook routers *)

(** [===] between two JSON values read from distinct parses: primitives by
    value, objects and arrays are distinct references. *)
Definition js_strict_eq (a b : option JVal) : bool :=
  match a, b with
  | None, None => true
  | Some JNull, Some JNull => true
  | Some (JBool x), Some (JBool y) => Bool.eqb x y
  | Some (JNum x), Some (JNum y) => Z.eqb x y
  | Some (JStr x), Some (JStr y) => String.eqb x y
  | _, _ => false
  end.

(** Two prefix tests of the routers. *)
Definition startsWith (s pre : string) : bool := String.prefix pre s.

(** [findMachineByReaderId] ([machines] is the content of machines.json). *)
Definition findMachineByReaderId (machines : list JsObj) (readerId : JVal) : option JsObj :=
  match find (fun m => js_strict_eq (obj_get m "stripeReaderId") (Some readerId)) machines with
  | Some exact => Some exact
  | None => match machines with [m] => Some m | _ => None end
  end.

Definition findMachineByMetadata (machines : list JsObj) (metadata : JVal) : option JsObj :=
  if negb (truthy_opt (js_get metadata "machineId")) then None
  else find (fun m => js_strict_eq (obj_get m "id") (js_get metadata "machineId")) machines.

(** [getMachineIp]: [None] is [null]; [Some None] stands for the throw of
    [ip.split] on a truthy non-string. *)
Definition getMachineIp (machine : JsObj) : option (option string) :=
  match rpi_address (Some machine) with
  | Some (JStr ip) => if String.eqb ip "" then None else Some (Some (before_colon ip))
  | Some v => if truthy v then Some None else None
  | None => None
  end.

Definition FORWARD_EVENTS : list string :=
  ["terminal.reader.action_succeeded";
   "terminal.reader.action_failed";
   "terminal.reader.action_updated";
   "payment_intent.amount_capturable_updated";
   "payment_intent.canceled"].

(** Device resolution of the Stripe webhook: lines "Find the target
    machine" to the single-machine fallback. *)
Definition stripe_resolve (machines : list JsObj) (eventType : string) (eventData : JVal)
    : option JsObj :=
  let m1 := if startsWith eventType "terminal.reader." then
              let readerId := match js_get eventData "id" with
                              | Some v => if truthy v then v else JStr ""
                              | None => JStr "" end in
              findMachineByReaderId machines readerId
            else None in
  let m2 := if startsWith eventType "payment_intent." then
              let metadata := match js_get eventData "metadata" with
                              | Some v => if truthy v then v else JObj []
                              | None => JObj [] end in
              match findMachineByMetadata machines metadata with
              | Some m => Some m
              | None =>
                  let charges := match js_get eventData "charges" with
                                 | Some c => match js_get c "data" with
                                             | Some v => if truthy v then v else JArr []
                                             | None => JArr [] end
                                 | None => JArr [] end in
                  match charges with
                  | JArr (c0 :: _) =>
                      let readerMeta :=
                        match js_get c0 "payment_method_details" with
                        | Some p => match js_get p "card_present" with
                                    | Some cp => js_get cp "reader"
                                    | None => None end
                        | None => None end in
                      match readerMeta with
                      | Some r => if truthy r then findMachineByReaderId machines r else None
                      | None => None
                      end
                  | _ => None
                  end
              end
            else m1 in
  match m2 with
  | Some m => Some m
  | None => match machines with [m] => Some m | _ => None end
  end.

Definition received_true : HttpResp := json (JObj [("received", JBool true)]).

(** [POST /api/stripe/webhook] (src/app/api/machines/route.ts).
    [secret] is [STRIPE_WEBHOOK_SECRET], [sig] the [stripe-signature]
    header, [sigValid] the result of [verifyStripeSignature], [event] the
    result of [JSON.parse(rawBody)] ([None]: it throws), [fwd] the outcome
    of [forwardToRpi].  Also returns the forwarding call made, if any. *)
Definition stripe_webhook_post (secret sig : string) (sigValid : bool) (event : option JVal)
    (machines : list JsObj) (fwd : FetchOutcome) : HttpResp * option (string * string) :=
  if negb (String.eqb secret "") && negb (String.eqb sig "") && negb sigValid then
    (Resp 400 (JObj [("error", JStr "Invalid signature")]), None)
  else
  match event with
  | None | Some JNull => (Resp 500 (JObj [("error", JStr "parse error")]), None)
  | Some ev =>
    let eventType := match js_get ev "type" with
                     | Some (JStr t) => Some t
                     | Some v => if truthy v then None else Some ""
                     | None => Some "" end in
    let eventData := match js_get ev "data" with
                     | Some d => match js_get d "object" with
                                 | Some o => if truthy o then o else JObj []
                                 | None => JObj [] end
                     | None => JObj [] end in
    match eventType with
    | Some et =>
      if negb (existsb (String.eqb et) FORWARD_EVENTS) then (received_true, None) else
      match stripe_resolve machines et eventData with
      | None => (received_true, None)
      | Some machine =>
        match getMachineIp machine with
        | None => (received_true, None)
        | Some None => (Resp 500 (JObj [("error", JStr "ip.split is not a function")]), None)
        | Some (Some rpiIp) =>
            (* [if (!rpiIp)]: an address such as ":5001" gives [""] *)
            if String.eqb rpiIp "" then (received_true, None) else
            (* forwarding failures are caught and logged *)
            (received_true, Some ("http://" +:+ rpiIp +:+ ":5001/stripe/webhook", et))
        end
      end
    | None => (received_true, None)
    end
  end.

(** [findMachineByTerminalId] *)
Definition findMachineByTerminalId (machines : list JsObj) (terminalId : JVal) : option JsObj :=
  match find (fun m => js_strict_eq (obj_get m "nayaxTerminalId") (Some terminalId)) machines with
  | Some exact => Some exact
  | None => match machines with [m] => Some m | _ => None end
  end.

(** [a || b] over possibly undefined values. *)
Definition js_or (a b : option JVal) : option JVal := if truthy_opt a then a else b.

(** [x ?? d] *)
Definition nullish (x : option JVal) (d : JVal) : JVal :=
  match x with Some JNull | None => d | Some v => v end.

(** [POST /api/nayax/webhook].  [payload] is [None] when [request.json()]
    throws; [eventParam] is the [event] query parameter. *)
Definition nayax_webhook_post (payload : option JVal) (eventParam : option string)
    (machines : list JsObj) (fwd : FetchOutcome) : HttpResp * option (string * JVal) :=
  match payload with
  | None | Some JNull => (Resp 500 (JObj [("ResultCode", JNum (-1))]), None)
  | Some p =>
    let eventType := default (JStr "Unknown")
          (js_or (js_get p "EventType") (js_or (js_get p "eventType")
             (js_or (option_map JStr eventParam) None))) in
    let terminalId := default (JStr "")
          (js_or (js_get p "TerminalId") (js_or (js_get p "terminalId") None)) in
    let sparkTxnId := default (JStr "") (js_or (js_get p "SparkTransactionId") None) in
    let ok_resp := json (JObj [("ResultCode", JNum 0); ("ResultDescription", JStr "OK");
                               ("SparkTransactionId", sparkTxnId)]) in
    match findMachineByTerminalId machines terminalId with
    | None => (ok_resp, None)   (* Still respond OK to Nayax so they don't retry *)
    | Some machine =>
      match getMachineIp machine with
      | None => (ok_resp, None)
      | Some None => (Resp 500 (JObj [("ResultCode", JNum (-1))]), None)
      | Some (Some rpiIp) =>
        if String.eqb rpiIp "" then (ok_resp, None) else
        let call := Some ("http://" +:+ rpiIp +:+ ":5001/nayax/webhook", eventType) in
        match fwd with
        | FetchJson rpiResult =>
            (json (JObj (obj_assign
                    [("ResultCode", nullish (js_get rpiResult "ResultCode") (JNum 0));
                     ("ResultDescription", nullish (js_get rpiResult "ResultDescription") (JStr "OK"));
                     ("SparkTransactionId", sparkTxnId)]
                    (spread_entries (Some rpiResult)))), call)
        | FetchError => (ok_resp, call)   (* Still respond OK to Nayax *)
        end
      end
    end
  end.

(** ** Examples used in the statements below *)

Definition sync_cmd_X : JVal :=
  JObj [("products", JArr [JStr "X"]); ("queuedAt", JStr "1000"); ("queuedBy", JStr "admin@shaka")].

(** A device known to the registry with a pending product sync. *)
Definition dev1_with_pending : JsObj :=
  obj_set (new_machine "dev-1" None 0) "pendingSync" sync_cmd_X.

Definition hb_dev1 : JVal := JObj [("machineId", JStr "dev-1"); ("status", JStr "online")].

Definition db_dev1_pending : MachinesDB := {[ "dev-1" := dev1_with_pending ]}.

(** ** Notions and examples used in the statements *)

Definition admin : Session := mkSession "admin@shaka" "admin".

Definition db_lookup (db : MachinesDB) (mid k : string) : option JVal :=
  match db !! mid with Some m => obj_get m k | None => None end.



(** The socket [c] is closed and [__wsClients] has no entry for [id]. *)
Definition closed_gone (s : Server) (c : nat) (id : string) : Prop :=
  (exists w, wsConns s !! c = Some w /\ readyState w <> 1%Z) /\ wsClients s !! id = None.

(** The socket [c], authenticated as [id], was probed and has not answered. *)
Definition unconfirmed (s : Server) (c : nat) (id : string) : Prop :=
  wsConns s !! c = Some (mkConn 1 false (Some id)).

Definition probed (s : Server) (c : nat) (id : string) : Prop :=
  unconfirmed s c id \/ closed_gone s c id.

(** Events between the two probes: no pong and no new [auth] from [c], and
    no [auth] for [id]. *)
Definition allowed_between (c : nat) (id : string) (e : WsEvent) : Prop :=
  match e with
  | EvPong c' => c' <> c
  | EvAuth c' mid => c' <> c /\ mid <> Some id
  | _ => True
  end.

Definition no_auth_for (id : string) (e : WsEvent) : Prop :=
  match e with EvAuth _ mid => mid <> Some id | _ => True end.

Definition server_m_authenticated : Server := ws_run server0 [EvConnect 1; EvAuth 1 (Some "m")].

(** Socket 1 authenticates as ["m"], then socket 2 authenticates as ["m"]
    and replaces it in [__wsClients]. *)
Definition server_m_reconnected : Server :=
  ws_run server0 [EvConnect 1; EvAuth 1 (Some "m"); EvConnect 2; EvAuth 2 (Some "m")].


Definition slot_of (q : QueueOp) : string :=
  match q with QSync _ => "pendingSync" | QStripe _ => "pendingStripeConfig" end.
Definition cmd_of (q : QueueOp) : JVal :=
  match q with QSync c | QStripe c => c end.

(** Number of entries of [o] with key [k]. *)
Definition count_key (o : JsObj) (k : string) : nat :=
  length (List.filter (fun kv => String.eqb k kv.1) o).

(** The command a slot holds after [ops], starting from [d]. *)
Definition last_queued (slot : string) (ops : list QueueOp) (d : option JVal) : option JVal :=
  fold_left (fun acc q => if String.eqb slot (slot_of q) then Some (cmd_of q) else acc) ops d.

Definition resp_keys (r : HttpResp) : list string :=
  match resp_body r with JObj kvs => map fst kvs | _ => [] end.

(** Whether [broadcastToMachine] finds an open live connection of [mid]. *)
Definition live_conn (s : Server) (mid : string) : bool :=
  match wsClients s !! mid with Some c => conn_open s c | None => false end.













(** ** Strings: [split], [parseInt], [toLowerCase] *)

(** [s.split(sep)] for a one-character separator. *)
Fixpoint split_char (sep : ascii) (s : string) : list string :=
  match s with
  | EmptyString => [""]
  | String c r =>
      let rest := split_char sep r in
      if Ascii.eqb c sep then "" :: rest
      else match rest with
           | x :: xs => String c x :: xs
           | [] => [String c EmptyString]
           end
  end.

Definition has_char (c : ascii) (s : string) : bool :=
  existsb (Ascii.eqb c) (list_ascii_of_string s).

(** Characters are UTF-16 code units below 256 (Latin-1). *)
Definition js_whitespace (c : ascii) : bool :=
  let n := nat_of_ascii c in
  Nat.eqb n 9 || Nat.eqb n 10 || Nat.eqb n 11 || Nat.eqb n 12 || Nat.eqb n 13 ||
  Nat.eqb n 32 || Nat.eqb n 160.

Fixpoint trim_start (s : string) : string :=
  match s with
  | String c r => if js_whitespace c then trim_start r else s
  | EmptyString => EmptyString
  end.

Definition digit_val (c : ascii) : option Z :=
  let n := nat_of_ascii c in
  if (48 <=? n)%nat && (n <=? 57)%nat then Some (Z.of_nat (n - 48)) else None.

(** The value of the longest prefix of decimal digits, if not empty. *)
Fixpoint digits_prefix (s : string) (acc : Z) (seen : bool) : option Z :=
  match s with
  | String c r =>
      match digit_val c with
      | Some d => digits_prefix r (acc * 10 + d) true
      | None => if seen then Some acc else None
      end
  | EmptyString => if seen then Some acc else None
  end.

(** [parseInt(s, 10)]; [None] is [NaN]. *)
Definition parseInt10 (s : string) : option Z :=
  match trim_start s with
  | String c r =>
      if Ascii.eqb c "-" then option_map Z.opp (digits_prefix r 0 false)
      else if Ascii.eqb c "+" then digits_prefix r 0 false
      else digits_prefix (String c r) 0 false
  | EmptyString => None
  end.

(** [toLowerCase] on Latin-1 code units. *)
Definition ascii_lower (c : ascii) : ascii :=
  let n := nat_of_ascii c in
  if ((65 <=? n)%nat && (n <=? 90)%nat) || ((192 <=? n)%nat && (n <=? 222)%nat && negb (Nat.eqb n 215))
  then ascii_of_nat (n + 32) else c.

Definition toLowerCase (s : string) : string :=
  string_of_list_ascii (map ascii_lower (list_ascii_of_string s)).

(** ** Stripe signature check: [verifyStripeSignature] (src/app/api/machines/route.ts) *)

(** The loop over [header.split(",")]: the last [t=] value ([None] is
    [undefined]) and every [v1=] value, in order. *)
Definition sig_parts (header : string) : option string * list (option string) :=
  fold_left (fun acc part =>
      let kv := split_char "=" part in
      let key := hd "" kv in
      let value := nth_error kv 1 in
      (if String.eqb key "t" then value else acc.1,
       if String.eqb key "v1" then app acc.2 [value] else acc.2))
    (split_char "," header) (Some "", []).

(** [verifyStripeSignature(payload, header, secret)] at [Date.now() = nowMs].
    [hmacHex secret msg] is the lowercase hex HMAC-SHA256 of [msg] computed
    with WebCrypto. *)
Definition verifyStripeSignature (hmacHex : string -> string -> string)
    (payload header secret : string) (nowMs : Z) : bool :=
  let '(timestamp, signatures) := sig_parts header in
  match timestamp with
  | None => false
  | Some t =>
    if String.eqb t "" then false else
    match signatures with
    | [] => false
    | _ :: _ =>
      let now := (nowMs / 1000)%Z in
      (* [Math.abs(now - NaN) > 300] is false *)
      let stale := match parseInt10 t with Some ts => (Z.abs (now - ts) >? 300)%Z | None => false end in
      if stale then false else
      let expected := hmacHex secret (t +:+ "." +:+ payload) in
      existsb (fun v => match v with Some x => String.eqb x expected | None => false end) signatures
    end
  end.

(** ** Sessions (src/lib/session.ts) *)

Record SafeUser := mkUser {
  user_id : string;
  user_email : string;
  user_name : string;
  user_role : string;
  user_createdAt : string
}.

Record SessionEntry := mkEntry { entry_user : SafeUser; expiresAt : Z }.

Definition SESSION_MAX_AGE : Z := 60 * 60 * 24 * 7.

(** Properties every plain object inherits from [Object.prototype]:
    [sessions[token]] is a function or an object for these, whose [user]
    is [undefined]. *)
Definition OBJECT_PROTOTYPE_KEYS : list string :=
  ["constructor"; "__proto__"; "hasOwnProperty"; "isPrototypeOf"; "propertyIsEnumerable";
   "toLocaleString"; "toString"; "valueOf"; "__defineGetter__"; "__defineSetter__";
   "__lookupGetter__"; "__lookupSetter__"].

(** [process.env.X || d] *)
Definition env_or (x : option string) (d : string) : string :=
  match x with Some s => if String.eqb s "" then d else s | None => d end.

(** [createSession(user)]: [token] is the bcrypt hash it computes; the
    token is also set as the [shaka_admin] cookie. *)
Definition createSession (sessions : gmap string SessionEntry) (user : SafeUser)
    (token : string) (now : Z) : gmap string SessionEntry * string :=
  (<[token := mkEntry user (now + SESSION_MAX_AGE * 1000)]> sessions, token).

(** [getSession()]: [cookie] is the value of the [shaka_admin] cookie,
    [adminEmail] the [ADMIN_EMAIL] environment variable. *)
Definition getSession (sessions : gmap string SessionEntry) (cookie : option string)
    (adminEmail : option string) (now : Z) : option SafeUser * gmap string SessionEntry :=
  match cookie with
  | None => (None, sessions)
  | Some token =>
    if String.eqb token "" then (None, sessions) else
    match sessions !! token with
    | Some entry =>
        if (now >? expiresAt entry)%Z then (None, delete token sessions)
        else (Some (entry_user entry), sessions)
    | None =>
        if existsb (String.eqb token) OBJECT_PROTOTYPE_KEYS then (None, sessions)
        else
          (* Legacy cookie from old single-admin system *)
          (Some (mkUser "legacy" (env_or adminEmail "admin@shaka.ca") "Admin" "admin"
                   (isoString now)), sessions)
    end
  end.



(** ** Stripe config of a machine (unnamed/part_009) *)

Definition maskKey (key : string) : string :=
  if (String.length key <? 12)%nat then (if String.eqb key "" then "" else "****")
  else substring 0 7 key +:+ "****" +:+ substring (String.length key - 4) 4 key.

(** [config] as written by [JSON.stringify] and read back by [JSON.parse]. *)
Definition config_json (c : StripeConfig) : JsObj :=
  [("secretKey", JStr (secretKey c)); ("readerId", JStr (readerId c));
   ("simulation", JBool (simulation c)); ("decimalPlaces", JNum (decimalPlaces c));
   ("apiTimeout", JNum (apiTimeout c)); ("vendResultTimeout", JNum (vendResultTimeout c));
   ("preauthMaxAmount", JNum (preauthMaxAmount c)); ("updatedAt", JStr (updatedAt c));
   ("updatedBy", JStr (updatedBy c))].

(** [GET /api/machines/:id/stripe-config]; [file] is the config file saved
    by the last [POST] for this machine, if any. *)
Definition stripe_config_get (file : option StripeConfig) : HttpResp :=
  match file with
  | Some config =>
      json (JObj [("ok", JBool true);
                  ("config", JObj (obj_set (obj_assign [] (config_json config)) "secretKey"
                                     (JStr (if String.eqb (secretKey config) "" then ""
                                            else maskKey (secretKey config)))))])
  | None => json (JObj [("ok", JBool true); ("config", JNull)])
  end.

(** The config file after [POST /api/machines/:id/stripe-config]: it is
    written ([fs.writeFileSync]) once the body is parsed, before any push;
    the key already saved is [existingConfig.secretKey]. *)
Definition stripe_config_saved (me : option Session) (body : option StripeConfigBody)
    (file : option StripeConfig) (now : Z) : option StripeConfig :=
  match me with
  | Some me =>
      if negb (String.eqb (role me) "admin") then file else
      match body with
      | Some b => Some (resolve_config b (option_map secretKey file) now me)
      | None => file
      end
  | None => file
  end.

(** ** Mock machine list: [GET /api/machines] (src/app/api/machines/route.ts) *)

(** The fields of a [mockMachines] entry the handler reads. *)
Record MockMachine := mkMock {
  mm_id : string;
  mm_status : string;
  mm_location : string;
  mm_inventory : list (string * Z)
}.

(** [searchParams.get(...)] is [None] when the parameter is absent. *)
Definition machines_get (mockMachines : list MockMachine) (status location lowStock : option string)
    : list MockMachine :=
  let f1 := match status with
            | Some st =>
                if negb (String.eqb st "") && existsb (String.eqb st) ["online"; "offline"]
                then List.filter (fun m => String.eqb (mm_status m) st) mockMachines else mockMachines
            | None => mockMachines
            end in
  let f2 := match location with
            | Some loc =>
                if String.eqb loc "" then f1
                else List.filter (fun m => str_includes (toLowerCase (mm_location m)) (toLowerCase loc)) f1
            | None => f1
            end in
  match lowStock with
  | Some l => if String.eqb l "true"
              then List.filter (fun m => existsb (fun kv => (kv.2 <? 5)%Z) (mm_inventory m)) f2 else f2
  | None => f2
  end.

(** ** Heartbeat ingestor of src/app/api/heartbeat/route.ts *)

Definition new_machine_route (machineId : string) (location : option JVal) (now : Z) : JsObj :=
  [("id", JStr machineId);
   ("name", JStr ("Station " +:+ toUpperCase machineId));
   ("status", JStr "offline");
   ("lastSeen", JNum now);
   ("uptime", JStr "0j 0h 0m");
   ("inventory", JObj []);
   ("cameraSnapshot", JStr ("/api/machines/" +:+ machineId +:+ "/snapshot"));
   ("sensors", JObj [("temp", JNum 0); ("humidity", JNum 0); ("doorOpen", JBool false)]);
   ("firmware", JStr "unknown");
   ("location", if truthy_opt location then default JNull location else JStr "Inconnue");
   ("firstSeen", JNum now)].

(** [POST /api/heartbeat] of src/app/api/heartbeat/route.ts. *)
Definition heartbeat_route_post (db : MachinesDB) (body : option JVal) (now : Z)
    : HttpResp * MachinesDB :=
  match body with
  | None | Some JNull => (invalid_json, db)
  | Some b =>
    let d k := js_get b k in
    match d "machineId" with
    | Some (JStr mid) =>
      if String.eqb mid "" then (machineId_required, db) else
      let m0 := match db !! mid with Some m => m | None => new_machine_route mid (d "location") now end in
      let m1 := obj_set m0 "lastSeen" (JNum now) in
      let m2 := set_if (d "status") "status" m1 in
      let m3 := if truthy_opt (d "sensors")
                then obj_set m2 "sensors" (spread2 (obj_get m2 "sensors") (d "sensors")) else m2 in
      let m4 := if truthy_opt (d "inventory")
                then obj_set m3 "inventory" (spread2 (obj_get m3 "inventory") (d "inventory")) else m3 in
      let m5 := set_if (d "location") "location" m4 in
      let m6 := set_if (d "firmware") "firmware" m5 in
      let m7o := if truthy_opt (d "uptime") then Some (set_if (d "uptime") "uptime" m6) else
                 match obj_get m6 "firstSeen" with
                 | Some (JNum firstSeen) =>
                     Some (obj_set m6 "uptime" (JStr (computeUptime firstSeen now)))
                 | _ => None
                 end in
      match m7o with
      | None => (invalid_json, <[mid := m6]> db)
      | Some m7 =>
          (json (JObj [("ok", JBool true);
                       ("received", JObj (opt_field "machineId" (d "machineId") ++
                                          opt_field "status" (d "status") ++
                                          opt_field "sensors" (d "sensors") ++
                                          opt_field "inventory" (d "inventory")))]),
           <[mid := m7]> db)
      end
    | _ => (machineId_required, db)
    end
  end.

(** No socket carries a non-empty device id. *)
Definition no_id_conns (s : Server) : Prop :=
  forall c w, wsConns s !! c = Some w -> is_truthy_id (machineId w) = false.

(** ** Examples used by the witnesses below *)


Definition cfg_inject : StripeConfig :=
  mkStripeConfig "sk_test_0123456789" ("tmr_1" +:+ nl +:+ "STRIPE_SIMULATION=0") true 2 15 30 5000
    "2026-01-01" "admin@shaka".

Definition sess1 : gmap string SessionEntry :=
  {[ "tok-a" := mkEntry (mkUser "u1" "op@shaka" "Op" "operator" "0") 1000 ]}.

Definition mock1 : list MockMachine :=
  [mkMock "shaka-0001" "online" "Paris, 75001" [("Shaka Classic", 12%Z); ("Shaka Mint", 5%Z)];
   mkMock "shaka-0002" "offline" "Lyon, 69001" [("Shaka Classic", 3%Z); ("Shaka Mango", 0%Z)]].

Definition dev1_inv : JsObj :=
  obj_set (new_machine "dev-1" None 0) "inventory" (JObj [("A", JNum 3); ("B", JNum 7)]).

Definition hb_inv : JVal :=
  JObj [("machineId", JStr "dev-1"); ("inventory", JObj [("B", JNum 2)])].

Definition dev_addr : JsObj :=
  [("id", JStr "dev-1"); ("source", JObj [("forwardedFor", JStr "10.0.0.7:41234")])].

Definition s_dev1 : Server := mkServer {[ "dev-1" := new_machine "dev-1" None 0 ]} ∅ ∅ [].



Definition s_ws1 : Server :=
  mkServer ∅ {[ 1 := mkConn 1 true (Some "dev-1") ]} {[ "dev-1" := 1 ]} [].

(** ** Lemmas on JS objects *)

Lemma obj_get_set (o : JsObj) k v k' :
  obj_get (obj_set o k v) k' = if String.eqb k' k then Some v else obj_get o k'.
Proof.
  induction o as [|[k0 v0] r IH]; simpl.
  - reflexivity.
  - destruct (String.eqb k k0) eqn:E; simpl.
    + apply String.eqb_eq in E; subst k0. destruct (String.eqb k' k); reflexivity.
    + rewrite IH. destruct (String.eqb k' k0) eqn:E'; [|reflexivity].
      apply String.eqb_eq in E'; subst k0.
      destruct (String.eqb k' k) eqn:E''; [|reflexivity].
      apply String.eqb_eq in E''; subst k'. rewrite String.eqb_refl in E. discriminate.
Qed.

Lemma obj_get_delete (o : JsObj) k k' :
  obj_get (obj_delete o k) k' = if String.eqb k' k then None else obj_get o k'.
Proof.
  unfold obj_delete.
  induction o as [|[k0 v0] r IH]; simpl.
  - destruct (String.eqb k' k); reflexivity.
  - destruct (String.eqb k k0) eqn:E; simpl.
    + apply String.eqb_eq in E; subst k0. rewrite IH.
      destruct (String.eqb k' k) eqn:E'; reflexivity.
    + rewrite IH. destruct (String.eqb k' k0) eqn:E'; [|reflexivity].
      apply String.eqb_eq in E'; subst k0.
      destruct (String.eqb k' k) eqn:E''; [|reflexivity].
      apply String.eqb_eq in E''; subst k'. rewrite String.eqb_refl in E. discriminate.
Qed.

Lemma obj_get_set_if x k (m : JsObj) k' :
  obj_get (set_if x k m) k' = if String.eqb k' k && truthy_opt x then x else obj_get m k'.
Proof.
  destruct x as [v|]; simpl.
  - destruct (truthy v) eqn:T.
    + rewrite obj_get_set, andb_true_r. reflexivity.
    + rewrite andb_false_r. reflexivity.
  - rewrite andb_false_r. reflexivity.
Qed.

Lemma obj_get_if_set (b : bool) (m : JsObj) k v k' :
  obj_get (if b then obj_set m k v else m) k' = if b && String.eqb k' k then Some v else obj_get m k'.
Proof. destruct b; simpl; [apply obj_get_set | reflexivity]. Qed.

Lemma obj_get_assign (acc src : JsObj) k :
  NoDup (map fst src) ->
  obj_get (obj_assign acc src) k = match obj_get src k with Some v => Some v | None => obj_get acc k end.
Proof.
  revert acc. induction src as [|[k0 v0] r IH]; intros acc Hnd; simpl; [reflexivity|].
  inversion Hnd as [|? ? Hnin Hnd']; subst.
  unfold obj_assign in *. simpl. rewrite IH by exact Hnd'.
  rewrite obj_get_set.
  destruct (String.eqb k k0) eqn:E.
  - apply String.eqb_eq in E; subst k0.
    assert (obj_get r k = None) as ->; [|reflexivity].
    clear -Hnin. induction r as [|[k1 v1] r' IH']; simpl; [reflexivity|].
    simpl in Hnin. apply not_elem_of_cons in Hnin as [Hne Hnin'].
    destruct (String.eqb k k1) eqn:E1.
    + apply String.eqb_eq in E1. contradiction.
    + apply IH'. exact Hnin'.
  - destruct (obj_get r k); reflexivity.
Qed.

Lemma obj_get_assign_nil (src : JsObj) k :
  NoDup (map fst src) -> obj_get (obj_assign [] src) k = obj_get src k.
Proof. intros H. rewrite obj_get_assign by exact H. destruct (obj_get src k); reflexivity. Qed.

(** [{ ...a, ...b }] read key by key: [b]'s value where [b] has the key,
    [a]'s otherwise. *)
Lemma spread2_get (a b : JsObj) k :
  NoDup (map fst a) -> NoDup (map fst b) ->
  js_get (spread2 (Some (JObj a)) (Some (JObj b))) k =
  match obj_get b k with Some v => Some v | None => obj_get a k end.
Proof.
  intros Ha Hb. unfold spread2, js_get; simpl.
  rewrite obj_get_assign by exact Hb. rewrite obj_get_assign_nil by exact Ha. reflexivity.
Qed.

(** ** The live connection manager *)

Section LiveConnections.

Lemma clients_delete_None (cl : gmap string nat) m id :
  cl !! id = None -> delete m cl !! id = None.
Proof.
  intros H. destruct (decide (m = id)) as [->|Hne].
  - apply lookup_delete_eq.
  - rewrite lookup_delete_ne by exact Hne. exact H.
Qed.

Lemma on_close_clients_None s c id :
  wsClients s !! id = None -> wsClients (on_close s c) !! id = None.
Proof.
  intros H. unfold on_close. destruct (wsConns s !! c) as [w|]; [|exact H].
  destruct (machineId w) as [m|]; simpl; [|exact H].
  destruct (negb (String.eqb m "")); simpl; [|exact H].
  apply clients_delete_None, H.
Qed.

Lemma on_close_conns_ne s c c' :
  c' <> c -> wsConns (on_close s c) !! c' = wsConns s !! c'.
Proof.
  intros Hne. unfold on_close. destruct (wsConns s !! c) as [w|]; [|reflexivity].
  destruct (machineId w) as [m|]; simpl;
    [destruct (negb (String.eqb m "")); simpl|];
    rewrite lookup_insert_ne by congruence; reflexivity.
Qed.

Lemma on_close_self s c w id :
  wsConns s !! c = Some w -> machineId w = Some id -> id <> "" ->
  closed_gone (on_close s c) c id.
Proof.
  intros Hw Hm Hid. unfold on_close. rewrite Hw, Hm.
  assert (negb (String.eqb id "") = true) as Ht.
  { destruct (String.eqb id "") eqn:E; [apply String.eqb_eq in E; contradiction|reflexivity]. }
  simpl. rewrite Ht. split.
  - exists (mkConn 3 (isAlive w) (Some id)). simpl. rewrite lookup_insert_eq. split; [reflexivity|discriminate].
  - simpl. apply lookup_delete_eq.
Qed.

Lemma tick_one_clients_None s c' id :
  wsClients s !! id = None -> wsClients (tick_one s c') !! id = None.
Proof.
  intros H. unfold tick_one. destruct (wsConns s !! c') as [w|]; [|exact H].
  destruct (Z.eqb (readyState w) 1); [|exact H].
  destruct (isAlive w); [exact H|]. apply on_close_clients_None, H.
Qed.

Lemma tick_one_conns_ne s c c' :
  c' <> c -> wsConns (tick_one s c') !! c = wsConns s !! c.
Proof.
  intros Hne. unfold tick_one. destruct (wsConns s !! c') as [w|]; [|reflexivity].
  destruct (Z.eqb (readyState w) 1); [|reflexivity].
  destruct (isAlive w).
  - simpl. rewrite lookup_insert_ne by congruence. reflexivity.
  - apply on_close_conns_ne. congruence.
Qed.

Lemma tick_one_gone s c' c id :
  closed_gone s c id -> closed_gone (tick_one s c') c id.
Proof.
  intros [[w [Hw Hr]] Hcl].
  destruct (decide (c' = c)) as [->|Hne].
  - unfold tick_one. rewrite Hw. pose proof Hr as Hr'. apply Z.eqb_neq in Hr'. rewrite Hr'.
    split; [exists w; auto|exact Hcl].
  - split.
    + exists w. rewrite tick_one_conns_ne by exact Hne. auto.
    + apply tick_one_clients_None, Hcl.
Qed.

Lemma tick_one_probed s c' c id :
  id <> "" -> probed s c id -> probed (tick_one s c') c id.
Proof.
  intros Hid [Hu|Hg].
  - destruct (decide (c' = c)) as [->|Hne].
    + right. unfold tick_one. rewrite Hu. simpl.
      exact (on_close_self s c (mkConn 1 false (Some id)) id Hu eq_refl Hid).
    + left. unfold unconfirmed. rewrite tick_one_conns_ne by exact Hne. exact Hu.
  - right. apply tick_one_gone, Hg.
Qed.

Lemma fold_tick_probed l s c id :
  id <> "" -> probed s c id -> probed (fold_left tick_one l s) c id.
Proof.
  revert s. induction l as [|c' l IH]; intros s Hid H; simpl; [exact H|].
  apply IH; [exact Hid|]. apply tick_one_probed; assumption.
Qed.

Lemma fold_tick_gone l s c id :
  id <> "" -> probed s c id -> In c l -> closed_gone (fold_left tick_one l s) c id.
Proof.
  revert s. induction l as [|c' l IH]; intros s Hid H Hin; [destruct Hin|]. simpl.
  destruct (decide (c' = c)) as [->|Hne].
  - assert (closed_gone (tick_one s c) c id) as Hg.
    { destruct H as [Hu|Hg].
      - unfold tick_one. rewrite Hu. simpl.
        exact (on_close_self s c (mkConn 1 false (Some id)) id Hu eq_refl Hid).
      - apply tick_one_gone, Hg. }
    destruct (fold_tick_probed l (tick_one s c) c id Hid (or_intror Hg)) as [Hu|Hg']; [|exact Hg'].
    exfalso. clear -Hg Hu.
    enough (forall l0 s0, closed_gone s0 c id -> closed_gone (fold_left tick_one l0 s0) c id) as Hf.
    { destruct (Hf l _ Hg) as [[w [Hw Hr]] _]. unfold unconfirmed in Hu. rewrite Hu in Hw.
      injection Hw as <-. apply Hr. reflexivity. }
    induction l0 as [|c1 l0 IH0]; intros s0 H0; simpl; [exact H0|]. apply IH0, tick_one_gone, H0.
  - apply IH; [exact Hid| |].
    + apply tick_one_probed; assumption.
    + destruct Hin as [Heq|Hin]; [contradiction|exact Hin].
Qed.

Lemma fold_tick_open l s c id a :
  id <> "" -> wsConns s !! c = Some (mkConn 1 a (Some id)) -> In c l ->
  probed (fold_left tick_one l s) c id.
Proof.
  revert s. induction l as [|c' l IH]; intros s Hid H Hin; [destruct Hin|]. simpl.
  destruct (decide (c' = c)) as [->|Hne].
  - apply fold_tick_probed; [exact Hid|].
    unfold tick_one. rewrite H. simpl. destruct a.
    + left. unfold unconfirmed. simpl. apply lookup_insert_eq.
    + right. exact (on_close_self s c (mkConn 1 false (Some id)) id H eq_refl Hid).
  - apply IH; [exact Hid| |].
    + rewrite tick_one_conns_ne by exact Hne. exact H.
    + destruct Hin as [Heq|Hin]; [contradiction|exact Hin].
Qed.

Lemma in_conn_keys s c w :
  wsConns s !! c = Some w -> In c (map fst (map_to_list (wsConns s))).
Proof.
  intros H. apply in_map_iff. exists (c, w). split; [reflexivity|].
  apply list_elem_of_In. apply elem_of_map_to_list. exact H.
Qed.

Lemma probed_in s c id :
  probed s c id -> exists w, wsConns s !! c = Some w.
Proof. intros [Hu|[[w [Hw _]] _]]; eexists; eassumption. Qed.

End LiveConnections.

Lemma broadcast_tables s mid msg :
  wsConns (snd (broadcastToMachine s mid msg)) = wsConns s /\
  wsClients (snd (broadcastToMachine s mid msg)) = wsClients s.
Proof.
  unfold broadcastToMachine. destruct (wsClients s !! mid) as [c|]; [|auto].
  destruct (conn_open s c); simpl; auto.
Qed.

Lemma processHeartbeat_tables s mid data now :
  wsConns (processHeartbeat s mid data now) = wsConns s /\
  wsClients (processHeartbeat s mid data now) = wsClients s.
Proof.
  unfold processHeartbeat. cbv zeta.
  match goal with |- context [match obj_get ?m "pendingSync" with _ => _ end] =>
    destruct (obj_get m "pendingSync") as [sync|] end; simpl; auto.
  destruct (truthy sync); simpl; auto.
  match goal with |- context [broadcastToMachine ?s1 ?m ?msg] =>
    destruct (broadcast_tables s1 m msg) as [-> ->] end. auto.
Qed.

Ltac processHeartbeat_tables_rw :=
  match goal with |- context [processHeartbeat ?s ?m ?d ?n] =>
    destruct (processHeartbeat_tables s m d n) as [Hc Hcl]; rewrite ?Hc, ?Hcl end.

Lemma step_probed s e c id :
  id <> "" -> allowed_between c id e -> probed s c id -> probed (ws_step s e) c id.
Proof.
  intros Hid Ha Hp. destruct (probed_in s c id Hp) as [wc Hwc].
  (* events that leave the socket [c] and [__wsClients !! id] as they are *)
  assert (forall s', wsConns s' !! c = wsConns s !! c ->
            (wsClients s !! id = None -> wsClients s' !! id = None) -> probed s' c id) as Hkeep.
  { intros s' Hc Hcl. destruct Hp as [Hu|[[w [Hw Hr]] Hn]].
    - left. unfold unconfirmed in *. rewrite Hc. exact Hu.
    - right. split; [exists w; rewrite Hc; auto|auto]. }
  destruct e as [c'|c'|c' mid|c' data fwd ua now|c'|]; simpl in Ha |- *; unfold is_truthy_id.
  - destruct (wsConns s !! c') eqn:E; [exact Hp|].
    apply Hkeep; [|auto]. simpl. rewrite lookup_insert_ne by congruence. reflexivity.
  - destruct (wsConns s !! c') as [w|]; [|exact Hp].
    destruct (Z.eqb (readyState w) 1); [|exact Hp].
    apply Hkeep; [|auto]. simpl. rewrite lookup_insert_ne by congruence. reflexivity.
  - destruct Ha as [Hne Hmid].
    destruct (wsConns s !! c') as [w|]; [|exact Hp].
    destruct (Z.eqb (readyState w) 1); [|exact Hp].
    destruct mid as [m|].
    + destruct (negb (String.eqb m "")).
      * apply Hkeep; simpl.
        -- rewrite lookup_insert_ne by congruence. reflexivity.
        -- intros H. rewrite lookup_insert_ne by congruence. exact H.
      * apply Hkeep.
        -- rewrite on_close_conns_ne by congruence. simpl.
           rewrite lookup_insert_ne by congruence. reflexivity.
        -- intros H. apply on_close_clients_None. exact H.
    + apply Hkeep.
      * rewrite on_close_conns_ne by congruence. simpl.
        rewrite lookup_insert_ne by congruence. reflexivity.
      * intros H. apply on_close_clients_None. exact H.
  - destruct (wsConns s !! c') as [w|]; [|exact Hp].
    destruct (Z.eqb (readyState w) 1); [|exact Hp].
    destruct (machineId w) as [m|].
    + destruct (negb (String.eqb m "")).
      * destruct data as [[| | | | |kvs]|]; try exact Hp;
          apply Hkeep; unfold send; simpl; processHeartbeat_tables_rw; auto.
      * apply Hkeep; simpl; auto.
    + apply Hkeep; simpl; auto.
  - unfold conn_open. destruct (decide (c' = c)) as [->|Hne].
    + destruct Hp as [Hu|[[w [Hw Hr]] Hn]].
      * rewrite Hu. simpl. right.
        exact (on_close_self s c (mkConn 1 false (Some id)) id Hu eq_refl Hid).
      * rewrite Hw. pose proof Hr as Hr'. apply Z.eqb_neq in Hr'. rewrite Hr'.
        right. split; [exists w; auto|exact Hn].
    + destruct (wsConns s !! c') as [w|]; [|exact Hp].
      destruct (Z.eqb (readyState w) 1); [|exact Hp].
      apply Hkeep.
      * apply on_close_conns_ne. congruence.
      * apply on_close_clients_None.
  - apply fold_tick_probed; assumption.
Qed.

Lemma step_clients_None s e id :
  no_auth_for id e -> wsClients s !! id = None -> wsClients (ws_step s e) !! id = None.
Proof.
  intros Ha H. destruct e as [c'|c'|c' mid|c' data fwd ua now|c'|]; simpl in Ha |- *; unfold is_truthy_id.
  - destruct (wsConns s !! c'); exact H.
  - destruct (wsConns s !! c') as [w|]; [|exact H].
    destruct (Z.eqb (readyState w) 1); exact H.
  - destruct (wsConns s !! c') as [w|]; [|exact H].
    destruct (Z.eqb (readyState w) 1); [|exact H].
    destruct mid as [m|].
    + destruct (negb (String.eqb m "")).
      * simpl. rewrite lookup_insert_ne by congruence. exact H.
      * apply on_close_clients_None. exact H.
    + apply on_close_clients_None. exact H.
  - destruct (wsConns s !! c') as [w|]; [|exact H].
    destruct (Z.eqb (readyState w) 1); [|exact H].
    destruct (machineId w) as [m|]; [|simpl; exact H].
    destruct (negb (String.eqb m "")); [|simpl; exact H].
    destruct data as [[| | | | |kvs]|]; try exact H; unfold send; simpl;
      processHeartbeat_tables_rw; exact H.
  - destruct (conn_open s c'); [apply on_close_clients_None|]; exact H.
  - unfold tick. generalize (map fst (map_to_list (wsConns s))). intros l.
    revert s H. induction l as [|c1 l IH]; intros s H; simpl; [exact H|].
    apply IH, tick_one_clients_None, H.
Qed.

Lemma push_no_entry s id msg : wsClients s !! id = None -> push s id msg = false.
Proof. intros H. unfold push, broadcastToMachine. rewrite H. reflexivity. Qed.

(** C5: an authenticated live connection that has not answered the liveness
    probe of one [pingInterval] run by the next run is terminated by it: the
    socket is closed, [__wsClients] has no entry for its device id any more,
    and every later push to that id returns false as long as no socket
    authenticates as that id again. *)
Theorem unanswered_probes_remove_connection (s0 : Server) (c : nat) (id : string) (a : bool)
    (evs rest : list WsEvent) :
  id <> "" ->
  wsConns s0 !! c = Some (mkConn 1 a (Some id)) ->
  Forall (allowed_between c id) evs ->
  Forall (no_auth_for id) rest ->
  let s2 := ws_run s0 (EvTick :: evs ++ [EvTick]) in
  conn_open s2 c = false /\ wsClients s2 !! id = None /\
  (forall msg, push (ws_run s2 rest) id msg = false).
Proof.
  intros Hid Hc Hevs Hrest s2.
  assert (Hp1 : probed (tick s0) c id).
  { apply (fold_tick_open _ s0 c id a Hid Hc). eapply in_conn_keys. exact Hc. }
  assert (Hp2 : probed (ws_run (tick s0) evs) c id).
  { clear Hrest. revert Hp1. unfold ws_run. generalize (tick s0).
    induction Hevs as [|e evs' He Hevs' IH]; intros s Hp; simpl; [exact Hp|].
    apply IH. apply step_probed; assumption. }
  assert (Hg : closed_gone s2 c id).
  { unfold s2, ws_run. simpl. rewrite fold_left_app. simpl.
    destruct (probed_in _ _ _ Hp2) as [w Hw].
    apply fold_tick_gone; [exact Hid|exact Hp2|]. eapply in_conn_keys. exact Hw. }
  destruct Hg as [[w [Hw Hr]] Hn]. split; [|split].
  - unfold conn_open. rewrite Hw. apply Z.eqb_neq. exact Hr.
  - exact Hn.
  - intros msg. apply push_no_entry. clear -Hrest Hn. revert Hn. unfold ws_run. generalize s2.
    induction Hrest as [|e rest' He Hrest' IH]; intros s Hs; simpl; [exact Hs|].
    apply IH. apply step_clients_None; assumption.
Qed.

Lemma unanswered_probes_remove_connection_witness :
  wsConns server_m_authenticated !! 1%nat = Some (mkConn 1 true (Some "m")) /\
  (let s2 := ws_run server_m_authenticated (EvTick :: [] ++ [EvTick]) in
   conn_open s2 1 = false /\ wsClients s2 !! "m" = None /\
   (forall msg, push (ws_run s2 []) "m" msg = false)).
Proof.
  split; [vm_compute; reflexivity|].
  apply (unanswered_probes_remove_connection server_m_authenticated 1 "m" true [] []).
  - discriminate.
  - vm_compute. reflexivity.
  - constructor.
  - constructor.
Defined.

(** C4 (counterexample): closing the superseded socket 1 removes the entry
    of the newer socket 2, which is still open; a push to ["m"] then fails. *)
Lemma close_of_superseded_channel_cex :
  wsClients server_m_reconnected !! "m" = Some 2%nat /\
  conn_open server_m_reconnected 1 = true /\
  wsClients (ws_step server_m_reconnected (EvClose 1)) !! "m" = None /\
  conn_open (ws_step server_m_reconnected (EvClose 1)) 2 = true /\
  push (ws_step server_m_reconnected (EvClose 1)) "m" JNull = false.
Proof. vm_compute. repeat split. Qed.

(** C4 (amended): when an open socket whose device id variable is set
    closes, the entry for that id is removed from [__wsClients], whatever
    socket it points at. *)
Theorem close_removes_entry_of_id (s : Server) (c : nat) (w : WsConn) (id : string) :
  wsConns s !! c = Some w -> readyState w = 1%Z -> machineId w = Some id -> id <> "" ->
  wsClients (ws_step s (EvClose c)) !! id = None.
Proof.
  intros Hw Hr Hm Hid. simpl. unfold conn_open. rewrite Hw, Hr. simpl.
  destruct (on_close_self s c w id Hw Hm Hid) as [_ H]. exact H.
Qed.

Lemma close_removes_entry_of_id_witness :
  wsClients server_m_reconnected !! "m" = Some 2%nat /\
  wsClients (ws_step server_m_reconnected (EvClose 1)) !! "m" = None.
Proof.
  split; [vm_compute; reflexivity|].
  apply (close_removes_entry_of_id server_m_reconnected 1 (mkConn 1 true (Some "m")) "m").
  - vm_compute. reflexivity.
  - reflexivity.
  - reflexivity.
  - discriminate.
Defined.

(** ** Draining the pending product sync *)

Lemma broadcast_db s mid msg :
  machinesDB (snd (broadcastToMachine s mid msg)) = machinesDB s.
Proof.
  unfold broadcastToMachine. destruct (wsClients s !! mid) as [c|]; [|auto].
  destruct (conn_open s c); simpl; auto.
Qed.




(** ** Pending-command slots *)

Lemma queue_command_set m q : queue_command m q = obj_set m (slot_of q) (cmd_of q).
Proof. destruct q; reflexivity. Qed.

Lemma count_key_set (o : JsObj) k v k2 :
  count_key (obj_set o k v) k2 =
  if String.eqb k2 k then (if Nat.eqb (count_key o k) 0 then 1%nat else count_key o k)
  else count_key o k2.
Proof.
  unfold count_key. induction o as [|[k' v'] r IH]; simpl.
  - destruct (String.eqb k2 k); reflexivity.
  - destruct (String.eqb k k') eqn:E1; simpl.
    + apply String.eqb_eq in E1; subst k'.
      destruct (String.eqb k2 k) eqn:E2.
      * apply String.eqb_eq in E2; subst k2. simpl. rewrite ?String.eqb_refl. reflexivity.
      * simpl. rewrite ?E2. reflexivity.
    + destruct (String.eqb k2 k') eqn:E3; simpl; rewrite IH;
        destruct (String.eqb k2 k) eqn:E2; try reflexivity.
      apply String.eqb_eq in E3, E2; subst. rewrite String.eqb_refl in E1. discriminate.
Qed.

(** C8. Each named pending slot holds one command, and queuing into it
    overwrites: after any sequence of queue operations
    ([machine.pendingSync = ...], [machine.pendingStripeConfig = ...]) the
    slot holds exactly the most recently queued command of its name (or its
    old content when none was queued), and the key occurs at most once
    (as often as before when that was more than once). *)
Theorem pending_slot_last_write_wins (m : JsObj) (ops : list QueueOp) (slot : string) :
  obj_get (fold_left queue_command ops m) slot = last_queued slot ops (obj_get m slot) /\
  (count_key (fold_left queue_command ops m) slot <= Nat.max 1 (count_key m slot))%nat.
Proof.
  unfold last_queued. revert m. induction ops as [|q ops IH]; intros m; simpl.
  - split; [reflexivity|lia].
  - destruct (IH (queue_command m q)) as [IH1 IH2]. split.
    + rewrite IH1. rewrite queue_command_set, obj_get_set. reflexivity.
    + eapply Nat.le_trans; [exact IH2|].
      rewrite queue_command_set, count_key_set.
      destruct (String.eqb slot (slot_of q)) eqn:E.
      * apply String.eqb_eq in E; subst slot.
        destruct (Nat.eqb (count_key m (slot_of q)) 0); lia.
      * lia.
Qed.

(** ** The HTTP heartbeat and the pending slots *)

Ltac obj_get_simpl :=
  repeat (rewrite ?obj_get_set, ?obj_get_set_if; simpl).

Lemma heartbeat_core_slot db machineId status sensors inventory location firmware
    agentVersion uptime meta proximity snapshots hdrF hdrUA now mid m k :
  k = "pendingSync" \/ k = "pendingStripeConfig" ->
  db !! mid = Some m ->
  db_lookup (snd (heartbeat_core db machineId status sensors inventory location firmware
                    agentVersion uptime meta proximity snapshots hdrF hdrUA now)) mid k
    = obj_get m k.
Proof.
  intros Hk Hm. unfold heartbeat_core. cbv zeta.
  destruct machineId as [[| | | mid' | |]|];
    try (simpl; unfold db_lookup; rewrite Hm; reflexivity).
  destruct (String.eqb mid' "");
    [simpl; unfold db_lookup; rewrite Hm; reflexivity|].
  destruct (String.eqb mid mid') eqn:E.
  - apply String.eqb_eq in E. subst mid'. rewrite Hm.
    destruct (truthy_opt sensors), (truthy_opt snapshots), (truthy_opt proximity),
      (truthy_opt uptime);
    try match goal with |- context [match obj_get ?x "firstSeen" with _ => _ end] =>
          destruct (obj_get x "firstSeen") as [[]|] end;
    simpl; unfold db_lookup; rewrite lookup_insert_eq;
    destruct Hk as [-> | ->]; obj_get_simpl; reflexivity.
  - apply String.eqb_neq in E.
    assert (Hne : forall x : JsObj, db_lookup (<[mid' := x]> db) mid k = obj_get m k)
      by (intros x; unfold db_lookup; rewrite lookup_insert_ne by congruence; rewrite Hm; reflexivity).
    destruct (truthy_opt uptime);
    try match goal with |- context [match obj_get ?x "firstSeen" with _ => _ end] =>
          destruct (obj_get x "firstSeen") as [[]|] end; apply Hne.
Qed.

Lemma heartbeat_post_slot db body hdrF hdrUA now mid m k :
  k = "pendingSync" \/ k = "pendingStripeConfig" ->
  db !! mid = Some m ->
  db_lookup (snd (heartbeat_post db body hdrF hdrUA now)) mid k = obj_get m k.
Proof.
  intros Hk Hm. unfold heartbeat_post.
  destruct body as [[]|]; try (simpl; unfold db_lookup; rewrite Hm; reflexivity);
    apply heartbeat_core_slot; assumption.
Qed.

Lemma heartbeat_core_keys db machineId status sensors inventory location firmware
    agentVersion uptime meta proximity snapshots hdrF hdrUA now :
  let r := fst (heartbeat_core db machineId status sensors inventory location firmware
                  agentVersion uptime meta proximity snapshots hdrF hdrUA now) in
  resp_keys r = ["ok"; "received"] \/ resp_keys r = ["error"].
Proof.
  unfold heartbeat_core. cbv zeta.
  destruct machineId as [[| | | mid | |]|]; try (right; reflexivity).
  destruct (String.eqb mid ""); [right; reflexivity|].
  destruct (truthy_opt uptime);
  try match goal with |- context [match obj_get ?x "firstSeen" with _ => _ end] =>
        destruct (obj_get x "firstSeen") as [[]|] end;
  first [left; reflexivity | right; reflexivity].
Qed.

Lemma heartbeat_post_keys db body hdrF hdrUA now :
  resp_keys (fst (heartbeat_post db body hdrF hdrUA now)) = ["ok"; "received"] \/
  resp_keys (fst (heartbeat_post db body hdrF hdrUA now)) = ["error"].
Proof.
  unfold heartbeat_post.
  destruct body as [[]|]; try (right; reflexivity); apply heartbeat_core_keys.
Qed.

Lemma processHeartbeat_drains s mid data now m sync :
  machinesDB s !! mid = Some m -> obj_get m "pendingSync" = Some sync -> truthy sync = true ->
  db_lookup (machinesDB (processHeartbeat s mid data now)) mid "pendingSync" = None /\
  (forall c, wsClients s !! mid = Some c -> conn_open s c = true ->
     sent (processHeartbeat s mid data now) =
     app (sent s) [(c, JObj [("type", JStr "sync-products");
                             ("products", default JNull (js_get sync "products"));
                             ("queuedAt", default JNull (js_get sync "queuedAt"))])]).
Proof.
  intros Hm Hs Ht. unfold processHeartbeat. cbv zeta. rewrite Hm.
  match goal with |- context [match obj_get ?x "pendingSync" with _ => _ end] =>
    replace (obj_get x "pendingSync") with (Some sync) end.
  2:{ destruct (truthy_opt (js_get data "sensors")), (truthy_opt (js_get data "snapshots")),
        (truthy_opt (js_get data "proximity")); obj_get_simpl; symmetry; exact Hs. }
  rewrite Ht. split.
  - rewrite broadcast_db. unfold db_lookup. cbn [machinesDB with_db].
    rewrite lookup_insert_eq, obj_get_delete. reflexivity.
  - intros c Hc Ho. unfold broadcastToMachine. cbn [wsClients with_db]. rewrite Hc.
    replace (conn_open _ c) with true by (rewrite <- Ho; reflexivity). reflexivity.
Qed.

(** C1 (as stated: drain on read through the heartbeat ack).  A heartbeat of
    a device whose [pendingSync] holds a command: the ack carries no
    pending command and the command stays in the registry. *)
Lemma heartbeat_ack_drains_pending_cex :
  let r := heartbeat_post db_dev1_pending (Some hb_dev1) None None 60000 in
  db_lookup db_dev1_pending "dev-1" "pendingSync" = Some sync_cmd_X /\
  db_lookup (snd r) "dev-1" "pendingSync" = Some sync_cmd_X /\
  js_get (resp_body (fst r)) "pending" = None /\
  js_get (resp_body (fst r)) "products" = None /\
  resp_keys (fst r) = ["ok"; "received"].
Proof. vm_compute. repeat split. Qed.

(** C1 (amended).  For a device whose [pendingSync] slot holds a command:
    the HTTP heartbeat ingestor neither reads nor clears the pending slots
    ([pendingSync], [pendingStripeConfig]) and its ack carries only [ok] and
    [received] (or an [error]); the product sync is drained by the
    pending-command check [GET /api/machines/:id/sync-products], which
    returns it and clears it in the same call; a heartbeat over the live
    channel clears it and pushes it to the device's live connection as a
    separate [sync-products] message. *)
Theorem pending_sync_drained_by_check_not_by_ack (db : MachinesDB) (mid : string)
    (m : JsObj) (sync : JVal)
    (Hm : db !! mid = Some m) (Hs : obj_get m "pendingSync" = Some sync)
    (Ht : truthy sync = true) :
  (forall body hdrF hdrUA now,
     db_lookup (snd (heartbeat_post db body hdrF hdrUA now)) mid "pendingSync" = Some sync /\
     db_lookup (snd (heartbeat_post db body hdrF hdrUA now)) mid "pendingStripeConfig"
       = obj_get m "pendingStripeConfig" /\
     (resp_keys (fst (heartbeat_post db body hdrF hdrUA now)) = ["ok"; "received"] \/
      resp_keys (fst (heartbeat_post db body hdrF hdrUA now)) = ["error"])) /\
  (forall l, js_get sync "products" = Some (JArr l) ->
     pending_sync_get db mid =
       (json (JObj [("ok", JBool true); ("pending", JBool true); ("products", JArr l);
                    ("queuedAt", default JNull (js_get sync "queuedAt"))]),
        <[mid := obj_delete m "pendingSync"]> db) /\
     db_lookup (<[mid := obj_delete m "pendingSync"]> db) mid "pendingSync" = None) /\
  (forall s data now, machinesDB s = db ->
     db_lookup (machinesDB (processHeartbeat s mid data now)) mid "pendingSync" = None /\
     (forall c, wsClients s !! mid = Some c -> conn_open s c = true ->
        sent (processHeartbeat s mid data now) =
        app (sent s) [(c, JObj [("type", JStr "sync-products");
                                ("products", default JNull (js_get sync "products"));
                                ("queuedAt", default JNull (js_get sync "queuedAt"))])])).
Proof.
  split; [|split].
  - intros body hdrF hdrUA now. split; [|split].
    + rewrite <- Hs. apply (heartbeat_post_slot _ _ _ _ _ _ m); [left|]; auto.
    + apply (heartbeat_post_slot _ _ _ _ _ _ m); [right|]; auto.
    + apply heartbeat_post_keys.
  - intros l Hl. split.
    + unfold pending_sync_get. rewrite Hm, Hs, Ht, Hl. reflexivity.
    + unfold db_lookup. rewrite lookup_insert_eq, obj_get_delete. reflexivity.
  - intros s data now Hdb. subst db. apply (processHeartbeat_drains _ _ _ _ m); assumption.
Qed.

Lemma pending_sync_drained_by_check_not_by_ack_witness :
  db_dev1_pending !! "dev-1" = Some dev1_with_pending /\
  obj_get dev1_with_pending "pendingSync" = Some sync_cmd_X /\
  truthy sync_cmd_X = true /\
  db_lookup (snd (heartbeat_post db_dev1_pending (Some hb_dev1) None None 60000))
    "dev-1" "pendingSync" = Some sync_cmd_X.
Proof.
  assert (Hm : db_dev1_pending !! "dev-1" = Some dev1_with_pending) by reflexivity.
  assert (Hs : obj_get dev1_with_pending "pendingSync" = Some sync_cmd_X) by reflexivity.
  assert (Ht : truthy sync_cmd_X = true) by reflexivity.
  split; [exact Hm|]. split; [exact Hs|]. split; [exact Ht|].
  exact (proj1 (proj1 (pending_sync_drained_by_check_not_by_ack
                         db_dev1_pending "dev-1" dev1_with_pending sync_cmd_X Hm Hs Ht)
                  (Some hb_dev1) None None 60000%Z)).
Defined.

(** ** Webhook acknowledgements *)

Lemma findMachineByReaderId_in machines r m :
  findMachineByReaderId machines r = Some m -> In m machines.
Proof.
  unfold findMachineByReaderId. destruct (find _ machines) as [x|] eqn:E.
  - intros [= <-]. apply find_some in E. apply E.
  - destruct machines as [|x [|]]; try discriminate. intros [= <-]. left. reflexivity.
Qed.

Lemma findMachineByMetadata_in machines md m :
  findMachineByMetadata machines md = Some m -> In m machines.
Proof.
  unfold findMachineByMetadata. destruct (negb _); [discriminate|].
  intros E. apply find_some in E. apply E.
Qed.

Lemma stripe_resolve_in machines et d m :
  stripe_resolve machines et d = Some m -> In m machines.
Proof.
  unfold stripe_resolve. cbv zeta. intros H.
  repeat match goal with
         | Hx : context [match ?x with _ => _ end] |- _ => destruct x eqn:?
         end;
  try discriminate;
  repeat match goal with Hx : Some _ = Some _ |- _ => injection Hx as Hx; subst end;
  first [ eapply findMachineByReaderId_in; eassumption
        | eapply findMachineByMetadata_in; eassumption
        | subst; left; reflexivity ].
Qed.

Lemma findMachineByTerminalId_in machines t m :
  findMachineByTerminalId machines t = Some m -> In m machines.
Proof.
  unfold findMachineByTerminalId. destruct (find _ machines) as [x|] eqn:E.
  - intros [= <-]. apply find_some in E. apply E.
  - destruct machines as [|x [|]]; try discriminate. intros [= <-]. left. reflexivity.
Qed.






(** ** Command dispatchers: transports tried *)

Lemma sync_products_attempts s me mid machine b products now :
  role me = "admin" ->
  machinesDB s !! mid = Some machine -> js_get b "products" = Some (JArr products) ->
  let x := sync_products_post s (Some me) mid (Some b) now in
  x.2 = (if live_conn s mid then [ALive] else [ALive; AQueue "pendingSync"]) /\
  transport_of x.1.1 = Some (JStr (if live_conn s mid then "websocket" else "http-pending")) /\
  (live_conn s mid = false ->
   machinesDB x.1.2 !! mid = Some (queue_command machine (QSync (pendingSync_cmd products now me)))).
Proof.
  intros Ha Hm Hp. cbv zeta. unfold sync_products_post. rewrite Ha. simpl negb. cbn iota.
  rewrite Hm. destruct b; try discriminate Hp.
  rewrite Hp. unfold live_conn, broadcastToMachine.
  destruct (wsClients s !! mid) as [c|].
  - destruct (conn_open s c); simpl; repeat split; try discriminate.
    intros _. rewrite lookup_insert_eq. reflexivity.
  - simpl; repeat split. intros _. rewrite lookup_insert_eq. reflexivity.
Qed.





(** ** Falsy heartbeat fields *)






Section FalsyFields.
Variables (db : MachinesDB) (mi st se inv loc fw av up me px sn : option JVal)
  (hF hU : option string) (now : Z).











End FalsyFields.

(** ** The merge of the HTTP heartbeat *)












(** ** Webhook target resolution *)













(** ** Strings, signatures, env file, sessions, device lists and live channel *)

Lemma str_app_assoc (a b c : string) : (a +:+ b) +:+ c = a +:+ (b +:+ c).
Proof. induction a as [|x a IH]; [reflexivity|]. exact (f_equal (String x) IH). Qed.

Lemma str_app_nil (a : string) : a +:+ "" = a.
Proof. induction a as [|x a IH]; [reflexivity|]. exact (f_equal (String x) IH). Qed.

Lemma has_char_app c (a b : string) : has_char c (a +:+ b) = has_char c a || has_char c b.
Proof.
  unfold has_char. induction a as [|x a IH]; simpl; [reflexivity|].
  rewrite IH. destruct (Ascii.eqb c x); reflexivity.
Qed.

Lemma has_char_cons c x (a : string) : has_char c (String x a) = Ascii.eqb c x || has_char c a.
Proof. reflexivity. Qed.

Lemma split_char_nonempty c s : exists h t, split_char c s = h :: t.
Proof.
  induction s as [|x s IH]; simpl; [eauto|].
  destruct IH as (h & t & ->). destruct (Ascii.eqb x c); eauto.
Qed.

Lemma split_char_nosep c s : has_char c s = false -> split_char c s = [s].
Proof.
  induction s as [|x s IH]; simpl; [reflexivity|].
  rewrite has_char_cons. intros H. apply orb_false_iff in H as [H1 H2].
  rewrite IH by exact H2. rewrite Ascii.eqb_sym, H1. reflexivity.
Qed.

Lemma split_char_app_sep c (x z : string) :
  split_char c (x +:+ String c z) = app (split_char c x) (split_char c z).
Proof.
  induction x as [|a x IH]; simpl.
  - rewrite Ascii.eqb_refl. reflexivity.
  - rewrite IH. destruct (Ascii.eqb a c); [reflexivity|].
    destruct (split_char_nonempty c x) as (h & t & ->). reflexivity.
Qed.

Lemma split_char_concat c (l : list string) :
  l <> [] ->
  split_char c (String.concat (String c EmptyString) l) = flat_map (split_char c) l.
Proof.
  induction l as [|x [|y l] IH]; intros Hne; [congruence| |].
  - simpl. rewrite app_nil_r. reflexivity.
  - change (String.concat (String c EmptyString) (x :: y :: l))
      with (x +:+ String c (String.concat (String c EmptyString) (y :: l))).
    rewrite split_char_app_sep, IH by discriminate. reflexivity.
Qed.

Lemma prefix_app (s t : string) : String.prefix s (s +:+ t) = true.
Proof.
  induction s as [|x s IH]; simpl; [destruct t; reflexivity|].
  destruct (Ascii.ascii_dec x x); [exact IH|contradiction].
Qed.

Lemma index_cons sub x s :
  String.index 0 sub s <> None -> String.index 0 sub (String x s) <> None.
Proof.
  intros H. cbn [String.index]. destruct (String.prefix sub (String x s)); [discriminate|].
  destruct (String.index 0 sub s); [discriminate|contradiction].
Qed.

Lemma str_includes_mid (a sub b : string) :
  sub <> "" -> str_includes (a +:+ sub +:+ b) sub = true.
Proof.
  intros Hs. unfold str_includes.
  enough (H : String.index 0 sub (a +:+ sub +:+ b) <> None)
    by (destruct (String.index 0 sub (a +:+ sub +:+ b)); [reflexivity|contradiction]).
  induction a as [|x a IH].
  - destruct sub as [|y sub']; [congruence|].
    change ("" +:+ String y sub' +:+ b) with (String y (sub' +:+ b)).
    cbn [String.index].
    replace (String.prefix (String y sub') (String y (sub' +:+ b))) with true; [discriminate|].
    symmetry. exact (prefix_app (String y sub') b).
  - apply index_cons. exact IH.
Qed.

(** [ip.split(":")[0]] *)
Lemma before_colon_spec (s : string) :
  has_char ":" (before_colon s) = false /\
  exists rest, s = before_colon s +:+ rest /\ (rest = "" \/ exists r, rest = String ":" r).
Proof.
  induction s as [|x s (IH1 & rest & IH2 & IH3)]; simpl.
  - split; [reflexivity|]. exists "". split; [reflexivity|left; reflexivity].
  - destruct (Ascii.eqb x ":") eqn:E.
    + apply Ascii.eqb_eq in E. subst x. split; [reflexivity|].
      exists (String ":" s). split; [reflexivity|right; eauto].
    + split.
      * rewrite has_char_cons, Ascii.eqb_sym, E. exact IH1.
      * exists rest. split; [exact (f_equal (String x) IH2)|exact IH3].
Qed.

Lemma split_kv (sep : ascii) (key v : string) :
  has_char sep key = false -> has_char sep v = false ->
  split_char sep (key +:+ String sep v) = [key; v].
Proof.
  intros Hk Hv. rewrite split_char_app_sep, !split_char_nosep by assumption. reflexivity.
Qed.

Lemma sig_parts_standard (ts sig : string) :
  has_char "," ts = false -> has_char "=" ts = false ->
  has_char "," sig = false -> has_char "=" sig = false ->
  sig_parts ("t=" +:+ ts +:+ ",v1=" +:+ sig) = (Some ts, [Some sig]).
Proof.
  intros H1 H2 H3 H4. unfold sig_parts.
  rewrite <- str_app_assoc.
  change (",v1=" +:+ sig) with (String "," ("v1=" +:+ sig)).
  rewrite split_char_app_sep, !split_char_nosep.
  - change ("t=" +:+ ts) with ("t" +:+ String "=" ts).
    change ("v1=" +:+ sig) with ("v1" +:+ String "=" sig).
    cbn [app fold_left]. rewrite !split_kv by (reflexivity || assumption). reflexivity.
  - rewrite has_char_app. simpl. exact H3.
  - rewrite has_char_app. simpl. exact H1.
Qed.

(** X1.  [verifyStripeSignature] on a header [t=<ts>,v1=<sig>] (no [,] or
    [=] inside [ts] and [sig]): it accepts exactly when [ts] is not empty,
    [ts] is within 300 s of the clock or is no number ([parseInt] gives
    [NaN], which skips the tolerance check), and [sig] is the HMAC of
    [<ts>.<payload>]. *)
Theorem verifyStripeSignature_standard_header (hmacHex : string -> string -> string)
    (payload secret : string) (nowMs : Z) (ts sig : string)
    (Hts1 : has_char "," ts = false) (Hts2 : has_char "=" ts = false)
    (Hsig1 : has_char "," sig = false) (Hsig2 : has_char "=" sig = false) :
  verifyStripeSignature hmacHex payload ("t=" +:+ ts +:+ ",v1=" +:+ sig) secret nowMs =
  negb (String.eqb ts "") &&
  match parseInt10 ts with
  | Some n => (Z.abs (nowMs / 1000 - n) <=? 300)%Z
  | None => true
  end &&
  String.eqb sig (hmacHex secret (ts +:+ "." +:+ payload)).
Proof.
  unfold verifyStripeSignature. rewrite sig_parts_standard by assumption.
  destruct (String.eqb ts ""); [reflexivity|]. cbn [negb andb].
  destruct (parseInt10 ts) as [n|].
  - rewrite Z.leb_antisym. unfold Z.gtb.
    destruct (Z.compare_spec (Z.abs (nowMs / 1000 - n)) 300) as [E|E|E];
      [rewrite (proj2 (Z.ltb_ge _ _)) by lia|rewrite (proj2 (Z.ltb_ge _ _)) by lia|
       rewrite (proj2 (Z.ltb_lt _ _)) by lia]; simpl;
      [replace (Z.abs (nowMs / 1000 - n) ?= 300)%Z with Eq by (symmetry; apply Z.compare_eq_iff; exact E)
      |replace (Z.abs (nowMs / 1000 - n) ?= 300)%Z with Lt by (symmetry; apply Z.compare_lt_iff; exact E)
      |replace (Z.abs (nowMs / 1000 - n) ?= 300)%Z with Gt by (symmetry; apply Z.compare_gt_iff; exact E)];
      simpl; rewrite ?orb_false_r; reflexivity.
  - simpl. rewrite orb_false_r. reflexivity.
Qed.

Lemma sig_parts_fold_v1 parts acc :
  Forall (fun part => hd "" (split_char "=" part) <> "v1") parts ->
  (fold_left (fun acc part =>
      let kv := split_char "=" part in
      let key := hd "" kv in
      let value := nth_error kv 1 in
      (if String.eqb key "t" then value else acc.1,
       if String.eqb key "v1" then app acc.2 [value] else acc.2)) parts acc).2 = acc.2.
Proof.
  revert acc. induction parts as [|p parts IH]; intros acc H; [reflexivity|].
  inversion H as [|? ? Hp Hr]; subst. simpl. rewrite IH by exact Hr. simpl.
  apply String.eqb_neq in Hp. rewrite Hp. reflexivity.
Qed.

Lemma sig_parts_fold_t parts acc :
  Forall (fun part => hd "" (split_char "=" part) <> "t") parts ->
  (fold_left (fun acc part =>
      let kv := split_char "=" part in
      let key := hd "" kv in
      let value := nth_error kv 1 in
      (if String.eqb key "t" then value else acc.1,
       if String.eqb key "v1" then app acc.2 [value] else acc.2)) parts acc).1 = acc.1.
Proof.
  revert acc. induction parts as [|p parts IH]; intros acc H; [reflexivity|].
  inversion H as [|? ? Hp Hr]; subst. simpl. rewrite IH by exact Hr. simpl.
  apply String.eqb_neq in Hp. rewrite Hp. reflexivity.
Qed.

Lemma verify_missing_parts hmacHex payload header secret nowMs :
  Forall (fun part => hd "" (split_char "=" part) <> "v1") (split_char "," header) \/
  Forall (fun part => hd "" (split_char "=" part) <> "t") (split_char "," header) ->
  verifyStripeSignature hmacHex payload header secret nowMs = false.
Proof.
  intros H. unfold verifyStripeSignature.
  destruct H as [H|H].
  - assert (H' : (sig_parts header).2 = []) by exact (sig_parts_fold_v1 _ (Some "", []) H).
    destruct (sig_parts header) as [t sigs]. simpl in H'. subst sigs.
    destruct t as [t|]; [destruct (String.eqb t "")|]; reflexivity.
  - assert (H' : (sig_parts header).1 = Some "") by exact (sig_parts_fold_t _ (Some "", []) H).
    destruct (sig_parts header) as [t sigs]. simpl in H'. subst t.
    reflexivity.
Qed.

(** X2.  A [stripe-signature] header with no [v1=] part, or with no [t=]
    part, fails [verifyStripeSignature]; with a configured secret the
    Stripe webhook then answers 400 and forwards nothing. *)
Theorem stripe_webhook_rejects_unsigned hmacHex rawBody sig secret nowMs event machines fwd
    (Hsecret : secret <> "") (Hsig : sig <> "")
    (Hparts : Forall (fun part => hd "" (split_char "=" part) <> "v1") (split_char "," sig) \/
              Forall (fun part => hd "" (split_char "=" part) <> "t") (split_char "," sig)) :
  verifyStripeSignature hmacHex rawBody sig secret nowMs = false /\
  stripe_webhook_post secret sig (verifyStripeSignature hmacHex rawBody sig secret nowMs)
    event machines fwd = (Resp 400 (JObj [("error", JStr "Invalid signature")]), None).
Proof.
  pose proof (verify_missing_parts hmacHex rawBody sig secret nowMs Hparts) as Hv.
  split; [exact Hv|]. rewrite Hv. unfold stripe_webhook_post.
  apply String.eqb_neq in Hsecret, Hsig. rewrite Hsecret, Hsig. reflexivity.
Qed.

Lemma pretty_N_go_has_char (c : ascii) (x : N) (s : string) :
  (forall d, Ascii.eqb c (pretty_N_char d) = false) ->
  has_char c (pretty_N_go x s) = has_char c s.
Proof.
  intros Hc. revert s. induction (N.lt_wf_0 x) as [x _ IH]; intros s.
  assert (x = 0 \/ 0 < x)%N as [->|Hx] by lia.
  - by rewrite pretty_N_go_0.
  - rewrite pretty_N_go_step by exact Hx. rewrite IH by (apply N.div_lt; lia).
    rewrite has_char_cons, Hc. reflexivity.
Qed.

Lemma pretty_Z_no_nl (z : Z) : has_char (ascii_of_nat 10) (pretty z) = false.
Proof.
  assert (Hc : forall d, Ascii.eqb (ascii_of_nat 10) (pretty_N_char d) = false).
  { intros d. unfold pretty_N_char. repeat case_match; reflexivity. }
  destruct z as [|p|p]; [reflexivity| |].
  - unfold pretty, pretty_Z, pretty, pretty_positive, pretty, pretty_N.
    destruct (decide (N.pos p = 0%N)); [reflexivity|].
    rewrite pretty_N_go_has_char by exact Hc. reflexivity.
  - unfold pretty, pretty_Z, pretty, pretty_positive, pretty, pretty_N.
    rewrite has_char_app.
    destruct (decide (N.pos p = 0%N)); [reflexivity|].
    rewrite pretty_N_go_has_char by exact Hc. reflexivity.
Qed.



Lemma split_char_line_break (c : ascii) (p a l : string) :
  has_char c p = false -> has_char c a = false -> has_char c l = false ->
  split_char c (p +:+ (a +:+ (String c "" +:+ l))) = [p +:+ a; l].
Proof.
  intros Hp Ha Hl. rewrite <- str_app_assoc. change (String c "" +:+ l) with (String c l).
  rewrite split_char_app_sep, !split_char_nosep; [reflexivity|exact Hl|].
  rewrite has_char_app, Hp, Ha. reflexivity.
Qed.

(** X5.  A [readerId] holding a newline ends the [STRIPE_READER_ID] line
    early: the text after the newline becomes a line of its own in the env
    file (for instance a second [STRIPE_SIMULATION=...] setting). *)
Theorem buildEnvFile_readerId_injects_line (config : StripeConfig) (mid a l : string)
    (Hr : readerId config = a +:+ nl +:+ l)
    (Ha : has_char (ascii_of_nat 10) a = false)
    (Hl : has_char (ascii_of_nat 10) l = false)
    (Hu : has_char (ascii_of_nat 10) (updatedAt config) = false)
    (Hk : has_char (ascii_of_nat 10) (secretKey config) = false)
    (Hm : has_char (ascii_of_nat 10) mid = false) :
  split_char (ascii_of_nat 10) (buildEnvFile config mid) =
    ["# Stripe Terminal Configuration";
     "# Auto-generated by Fleet Manager";
     "# Updated: " +:+ updatedAt config;
     "";
     "STRIPE_SECRET_KEY=" +:+ secretKey config;
     "STRIPE_READER_ID=" +:+ a;
     l;
     "MACHINE_ID=" +:+ mid;
     "STRIPE_SIMULATION=" +:+ (if simulation config then "1" else "0");
     "STRIPE_DECIMAL_PLACES=" +:+ pretty (decimalPlaces config);
     "STRIPE_API_TIMEOUT=" +:+ pretty (apiTimeout config);
     "STRIPE_VEND_RESULT_TIMEOUT=" +:+ pretty (vendResultTimeout config);
     "STRIPE_PREAUTH_MAX_AMOUNT=" +:+ pretty (preauthMaxAmount config);
     "STRIPE_STATE_FILE=/tmp/shaka_stripe_state.json";
     ""].
Proof.
  unfold buildEnvFile. rewrite split_char_concat by discriminate.
  rewrite Hr. unfold nl. cbn [flat_map].
  rewrite split_char_line_break by (reflexivity || assumption).
  rewrite !split_char_nosep by (rewrite ?has_char_app, ?Hu, ?Hk, ?Hm, ?pretty_Z_no_nl;
    try destruct (simulation config); reflexivity).
  reflexivity.
Qed.

Lemma getMachineIp_some (m : JsObj) (ip : string) :
  getMachineIp m = Some (Some ip) ->
  exists addr, rpi_address (Some m) = Some (JStr addr) /\ addr <> "" /\
    has_char ":" ip = false /\
    exists rest, addr = ip +:+ rest /\ (rest = "" \/ exists r, rest = String ":" r).
Proof.
  intros H. unfold getMachineIp in H.
  destruct (rpi_address (Some m)) as [v|]; [|discriminate].
  destruct v as [| | |addr| |]; try (destruct (truthy _); discriminate).
  destruct (String.eqb addr "") eqn:E; [discriminate|].
  injection H as <-. exists addr. split; [reflexivity|]. split; [apply String.eqb_neq, E|].
  apply before_colon_spec.
Qed.

(** X11.  A host returned by [getMachineIp] holds no [:]; it is the start
    of the stored non-empty address up to its first [:] (or the whole
    address). *)
Theorem getMachineIp_host_before_colon (m : JsObj) (ip : string)
    (H : getMachineIp m = Some (Some ip)) :
  exists addr, rpi_address (Some m) = Some (JStr addr) /\ addr <> "" /\
    has_char ":" ip = false /\
    exists rest, addr = ip +:+ rest /\ (rest = "" \/ exists r, rest = String ":" r).
Proof. exact (getMachineIp_some m ip H). Qed.



(** X7.  The token [createSession] stores is accepted by [getSession] up to
    and including [now + 604800000] ms; afterwards [getSession] returns
    [null] and deletes the entry. *)
Theorem createSession_valid_for_seven_days (sessions : gmap string SessionEntry) (user : SafeUser)
    (token : string) (now : Z) (adminEmail : option string) (t : Z)
    (Hne : token <> "") :
  let '(sessions', cookie) := createSession sessions user token now in
  cookie = token /\
  ((t <= now + 604800000)%Z ->
     getSession sessions' (Some cookie) adminEmail t = (Some user, sessions')) /\
  ((now + 604800000 < t)%Z ->
     getSession sessions' (Some cookie) adminEmail t = (None, delete token sessions)).
Proof.
  unfold createSession, getSession. apply String.eqb_neq in Hne.
  split; [reflexivity|]. rewrite Hne, lookup_insert_eq. cbn [expiresAt entry_user].
  unfold SESSION_MAX_AGE. split; intros Ht.
  - replace (t >? now + 60 * 60 * 24 * 7 * 1000)%Z with false by (symmetry; rewrite Z.gtb_ltb; apply Z.ltb_ge; lia).
    reflexivity.
  - replace (t >? now + 60 * 60 * 24 * 7 * 1000)%Z with true by (symmetry; rewrite Z.gtb_ltb; apply Z.ltb_lt; lia).
    rewrite delete_insert_eq. reflexivity.
Qed.


(** X3.  The [GET] of the stripe config shows the masked key; posting that
    masked value back as [secretKey] keeps the saved key unchanged. *)
Theorem stripe_config_masked_key_kept (config : StripeConfig) (me : option Session)
    (b : StripeConfigBody) (now : Z) :
  let masked := if String.eqb (secretKey config) "" then "" else maskKey (secretKey config) in
  match js_get (resp_body (stripe_config_get (Some config))) "config" with
  | Some c => js_get c "secretKey"
  | None => None
  end = Some (JStr masked) /\
  (b_secretKey b = Some masked ->
   option_map secretKey (stripe_config_saved me (Some b) (Some config) now) = Some (secretKey config)).
Proof.
  intros masked. split; [reflexivity|].
  intros Hb. unfold stripe_config_saved.
  destruct me as [me|]; [|reflexivity].
  destruct (negb (String.eqb (role me) "admin")); [reflexivity|].
  simpl. unfold resolve_config. rewrite Hb. simpl. f_equal.
  subst masked. destruct (String.eqb (secretKey config) "") eqn:E.
  - apply String.eqb_eq in E. rewrite E. reflexivity.
  - assert (Hinc : str_includes (maskKey (secretKey config)) "****" = true).
    { unfold maskKey. destruct (String.length (secretKey config) <? 12)%nat.
      - rewrite E. reflexivity.
      - apply str_includes_mid. discriminate. }
    rewrite Hinc, andb_false_r. reflexivity.
Qed.

(** X9.  Every machine [GET /api/machines] returns comes from the list,
    has the requested status when it is [online] or [offline], has a
    location containing the requested one ignoring case, and has an item
    under 5 in stock when [lowStock=true]. *)
Theorem machines_get_sound (mockMachines : list MockMachine) (status location lowStock : option string)
    (m : MockMachine) (Hin : In m (machines_get mockMachines status location lowStock)) :
  In m mockMachines /\
  (forall st, status = Some st -> (st = "online" \/ st = "offline") -> mm_status m = st) /\
  (forall loc, location = Some loc -> loc <> "" ->
     str_includes (toLowerCase (mm_location m)) (toLowerCase loc) = true) /\
  (lowStock = Some "true" -> exists kv, In kv (mm_inventory m) /\ (kv.2 < 5)%Z).
Proof.
  unfold machines_get in Hin.
  set (f1 := match status with
             | Some st =>
                 if negb (String.eqb st "") && existsb (String.eqb st) ["online"; "offline"]
                 then List.filter (fun m => String.eqb (mm_status m) st) mockMachines else mockMachines
             | None => mockMachines
             end) in Hin.
  set (f2 := match location with
             | Some loc =>
                 if String.eqb loc "" then f1
                 else List.filter (fun m => str_includes (toLowerCase (mm_location m)) (toLowerCase loc)) f1
             | None => f1
             end) in Hin.
  assert (H2 : In m f2 /\ (lowStock = Some "true" -> exists kv, In kv (mm_inventory m) /\ (kv.2 < 5)%Z)).
  { destruct lowStock as [l|]; [|split; [exact Hin|discriminate]].
    destruct (String.eqb l "true") eqn:El.
    - apply filter_In in Hin as [Hin Hlow]. split; [exact Hin|].
      intros _. apply existsb_exists in Hlow as (kv & Hkv & Hlt).
      exists kv. split; [exact Hkv|]. apply Z.ltb_lt, Hlt.
    - split; [exact Hin|]. intros [= ->]. discriminate. }
  destruct H2 as [Hf2 Hlow].
  assert (H1 : In m f1 /\ (forall loc, location = Some loc -> loc <> "" ->
     str_includes (toLowerCase (mm_location m)) (toLowerCase loc) = true)).
  { subst f2. destruct location as [loc|]; [|split; [exact Hf2|discriminate]].
    destruct (String.eqb loc "") eqn:El.
    - split; [exact Hf2|]. intros loc' [= <-] Hne. apply String.eqb_eq in El. contradiction.
    - apply filter_In in Hf2 as [Hf1 Hloc]. split; [exact Hf1|]. intros loc' [= <-] _. exact Hloc. }
  destruct H1 as [Hf1 Hloc].
  subst f1. destruct status as [st|].
  - destruct (negb (String.eqb st "") && existsb (String.eqb st) ["online"; "offline"]) eqn:Es.
    + apply filter_In in Hf1 as [Hm Hst]. split; [exact Hm|]. split; [|split; assumption].
      intros st' [= <-] _. apply String.eqb_eq, Hst.
    + split; [exact Hf1|]. split; [|split; assumption].
      intros st' [= <-] Hst. exfalso.
      destruct Hst as [-> | ->]; discriminate Es.
  - split; [exact Hf1|]. split; [discriminate|split; assumption].
Qed.

(** X12.  For [firstSeen <= now], [computeUptime] prints days [d >= 0],
    hours in [0, 24) and minutes in [0, 60) whose total is the elapsed
    time rounded down to the minute. *)
Theorem computeUptime_fields (firstSeen now : Z) (Hdiff : (firstSeen <= now)%Z) :
  exists d h m,
    computeUptime firstSeen now = pretty d +:+ "j " +:+ pretty h +:+ "h " +:+ pretty m +:+ "m" /\
    (0 <= d)%Z /\ (0 <= h < 24)%Z /\ (0 <= m < 60)%Z /\
    (d * 86400000 + h * 3600000 + m * 60000 <= now - firstSeen <
     d * 86400000 + h * 3600000 + m * 60000 + 60000)%Z.
Proof.
  unfold computeUptime. cbv zeta.
  set (diff := (now - firstSeen)%Z).
  assert (Hd : (0 <= diff)%Z) by (subst diff; lia).
  rewrite !Z.rem_mod_nonneg by lia.
  exists (diff / (1000 * 60 * 60 * 24))%Z, (diff mod (1000 * 60 * 60 * 24) / (1000 * 60 * 60))%Z,
    (diff mod (1000 * 60 * 60) / (1000 * 60))%Z.
  split; [reflexivity|].
  assert (E1 := Z.div_mod diff 86400000 ltac:(lia)).
  assert (B1 := Z.mod_pos_bound diff 86400000 ltac:(lia)).
  set (r1 := (diff mod 86400000)%Z) in *.
  set (q1 := (diff / 86400000)%Z) in *.
  assert (E2 := Z.div_mod r1 3600000 ltac:(lia)).
  assert (B2 := Z.mod_pos_bound r1 3600000 ltac:(lia)).
  assert (Hr : (diff mod 3600000 = r1 mod 3600000)%Z).
  { rewrite E1. replace (86400000 * q1 + r1)%Z with (r1 + (24 * q1) * 3600000)%Z by lia.
    apply Z_mod_plus_full. }
  change (1000 * 60 * 60 * 24)%Z with 86400000%Z.
  change (1000 * 60 * 60)%Z with 3600000%Z.
  change (1000 * 60)%Z with 60000%Z.
  fold r1 q1. rewrite Hr.
  set (r2 := (r1 mod 3600000)%Z) in *.
  set (q2 := (r1 / 3600000)%Z) in *.
  assert (E3 := Z.div_mod r2 60000 ltac:(lia)).
  assert (B3 := Z.mod_pos_bound r2 60000 ltac:(lia)).
  set (q3 := (r2 / 60000)%Z) in *.
  assert (0 <= q1)%Z by (apply Z.div_pos; lia).
  assert (0 <= q2 < 24)%Z by (split; [apply Z.div_pos; lia|apply Z.div_lt_upper_bound; lia]).
  assert (0 <= q3 < 60)%Z by (split; [apply Z.div_pos; lia|apply Z.div_lt_upper_bound; lia]).
  subst diff. lia.
Qed.

(** X10.  The heartbeat of src/app/api/heartbeat/route.ts merges an
    [inventory] object into the stored one key by key: a key sent wins, a
    key not sent keeps its stored value; the merge is kept also when the
    uptime computation fails. *)
Theorem heartbeat_route_inventory_merged (db : MachinesDB) (b : JVal) (now : Z) (mid : string)
    (m : JsObj) (inv newinv : JsObj) (k : string)
    (Hb : js_get b "machineId" = Some (JStr mid)) (Hmid : mid <> "")
    (Hm : db !! mid = Some m) (Hinv : obj_get m "inventory" = Some (JObj inv))
    (Hnew : js_get b "inventory" = Some (JObj newinv))
    (Hnd1 : NoDup (map fst inv)) (Hnd2 : NoDup (map fst newinv)) :
  exists m', (heartbeat_route_post db (Some b) now).2 !! mid = Some m' /\
    match obj_get m' "inventory" with Some i => js_get i k | None => None end =
    match obj_get newinv k with Some v => Some v | None => obj_get inv k end.
Proof.
  assert (Hbn : b <> JNull) by (intros ->; discriminate Hb).
  unfold heartbeat_route_post. cbv zeta.
  destruct b as [| | | | |kvs]; try discriminate Hb; clear Hbn.
  rewrite Hb. apply String.eqb_neq in Hmid. rewrite Hmid, Hm, Hnew. cbn [truthy_opt truthy js_get].
  set (m4 := obj_set _ "inventory" _).
  assert (H4 : obj_get m4 "inventory" = Some (spread2 (Some (JObj inv)) (Some (JObj newinv)))).
  { subst m4. rewrite obj_get_set. simpl.
    destruct (truthy_opt (obj_get kvs "sensors")); obj_get_simpl; rewrite Hinv; reflexivity. }
  assert (H6 : forall m6, obj_get m6 "inventory" = obj_get m4 "inventory" ->
    match obj_get m6 "inventory" with Some i => js_get i k | None => None end =
    match obj_get newinv k with Some v => Some v | None => obj_get inv k end).
  { intros m6 E. rewrite E, H4. apply spread2_get; assumption. }
  destruct (truthy_opt (obj_get kvs "uptime"));
  try match goal with |- context [match obj_get ?x "firstSeen" with _ => _ end] =>
        destruct (obj_get x "firstSeen") as [[]|] end;
  (eexists; split; [cbn [snd]; apply lookup_insert_eq|apply H6; obj_get_simpl; reflexivity]).
Qed.

(** X13.  A product sync queued by the dispatcher (no live connection) is
    returned by the device's next [GET] check with the products and the
    queue time, and removed from the entry. *)
Theorem queued_sync_delivered_by_next_check (s : Server) (me : Session) (mid : string)
    (machine : JsObj) (b : JVal) (products : list JVal) (now : Z)
    (Ha : role me = "admin") (Hm : machinesDB s !! mid = Some machine)
    (Hp : js_get b "products" = Some (JArr products)) (Hlive : live_conn s mid = false) :
  let '(r, s', _) := sync_products_post s (Some me) mid (Some b) now in
  transport_of r = Some (JStr "http-pending") /\
  pending_sync_get (machinesDB s') mid =
    (json (JObj [("ok", JBool true); ("pending", JBool true);
                 ("products", JArr products); ("queuedAt", JStr (isoString now))]),
     <[mid := obj_delete (queue_command machine (QSync (pendingSync_cmd products now me))) "pendingSync"]>
       (machinesDB s')).
Proof.
  pose proof (sync_products_attempts s me mid machine b products now Ha Hm Hp) as H.
  cbv zeta in H. rewrite Hlive in H. destruct H as (_ & Ht & Hdb).
  destruct (sync_products_post s (Some me) mid (Some b) now) as [[r s'] att] eqn:E.
  specialize (Hdb eq_refl). cbn [fst snd] in Hdb, Ht. split.
  - exact Ht.
  - unfold pending_sync_get. rewrite Hdb. rewrite queue_command_set. cbn [slot_of cmd_of].
    rewrite obj_get_set. reflexivity.
Qed.

Lemma processHeartbeat_db s mid data now :
  exists m', machinesDB (processHeartbeat s mid data now) = <[mid := m']> (machinesDB s) /\
    obj_get m' "pendingStripeConfig" =
      match machinesDB s !! mid with Some m => obj_get m "pendingStripeConfig" | None => None end /\
    obj_get m' "wsConnected" = Some (JBool true).
Proof.
  unfold processHeartbeat. cbv zeta.
  destruct (machinesDB s !! mid) as [m|] eqn:Hm;
  match goal with |- context [match obj_get ?x "pendingSync" with _ => _ end] =>
    destruct (obj_get x "pendingSync") as [sync|] end;
  try destruct (truthy sync);
  (eexists; split;
   [rewrite ?broadcast_db; reflexivity
   |rewrite ?obj_get_delete; cbn [String.eqb Ascii.eqb Bool.eqb];
    repeat match goal with |- context [if truthy_opt ?x then _ else _] => destruct (truthy_opt x) end;
    split; obj_get_simpl; reflexivity]).
Qed.


Lemma on_close_db s c : machinesDB (on_close s c) = machinesDB s.
Proof.
  unfold on_close. destruct (wsConns s !! c) as [w|]; [|reflexivity].
  destruct (machineId w) as [m|]; [destruct (is_truthy_id (Some m))|]; reflexivity.
Qed.

Lemma fold_tick_db l s : machinesDB (fold_left tick_one l s) = machinesDB s.
Proof.
  revert s. induction l as [|c l IH]; intros s; [reflexivity|].
  simpl. rewrite IH. unfold tick_one. destruct (wsConns s !! c) as [w|]; [|reflexivity].
  destruct (Z.eqb (readyState w) 1); [|reflexivity].
  destruct (isAlive w); [reflexivity|apply on_close_db].
Qed.






Lemma on_close_no_id s c : no_id_conns s -> no_id_conns (on_close s c).
Proof.
  intros H c' w'. unfold on_close. destruct (wsConns s !! c) as [w|] eqn:Hw; [|apply H].
  assert (Hs : forall s1, wsConns s1 = <[c := mkConn 3 (isAlive w) (machineId w)]> (wsConns s) ->
            wsConns s1 !! c' = Some w' -> is_truthy_id (machineId w') = false).
  { intros s1 -> Hl. destruct (decide (c = c')) as [<-|Hne].
    - rewrite lookup_insert_eq in Hl. injection Hl as <-. exact (H c w Hw).
    - rewrite lookup_insert_ne in Hl by exact Hne. exact (H c' w' Hl). }
  destruct (machineId w) as [m|] eqn:Em; [destruct (is_truthy_id (Some m))|];
    apply Hs; cbn; rewrite ?Em; reflexivity.
Qed.

Lemma set_conn_no_id s c w : no_id_conns s -> is_truthy_id (machineId w) = false ->
  no_id_conns (set_conn s c w).
Proof.
  intros H Hw c' w'. unfold set_conn, with_conns. cbn [wsConns].
  destruct (decide (c = c')) as [<-|Hne].
  - rewrite lookup_insert_eq. intros [= <-]. exact Hw.
  - rewrite lookup_insert_ne by exact Hne. apply H.
Qed.

Lemma tick_one_no_id s c : no_id_conns s ->
  no_id_conns (tick_one s c) /\ machinesDB (tick_one s c) = machinesDB s.
Proof.
  intros H. unfold tick_one.
  destruct (wsConns s !! c) as [w|] eqn:Hw; [|split; [exact H|reflexivity]].
  destruct (Z.eqb (readyState w) 1); [|split; [exact H|reflexivity]].
  destruct (isAlive w).
  - split; [apply (set_conn_no_id s c (mkConn 1 false (machineId w)) H (H c w Hw))|reflexivity].
  - split; [apply on_close_no_id, H|apply on_close_db].
Qed.

Lemma fold_tick_no_id l s : no_id_conns s ->
  no_id_conns (fold_left tick_one l s) /\ machinesDB (fold_left tick_one l s) = machinesDB s.
Proof.
  revert s. induction l as [|c l IH]; intros s H; [split; [exact H|reflexivity]|].
  simpl. destruct (tick_one_no_id s c H) as [H1 H2].
  destruct (IH _ H1) as [H3 H4]. split; [exact H3|rewrite H4; exact H2].
Qed.

Lemma ws_step_no_auth s e :
  no_id_conns s ->
  match e with EvAuth _ mid => is_truthy_id mid = false | _ => True end ->
  no_id_conns (ws_step s e) /\ machinesDB (ws_step s e) = machinesDB s.
Proof.
  intros H He. destruct e as [c|c|c mid|c data fwd ua now|c|]; unfold ws_step.
  - destruct (wsConns s !! c); [split; [exact H|reflexivity]|].
    split; [apply set_conn_no_id; [exact H|reflexivity]|reflexivity].
  - destruct (wsConns s !! c) as [w|] eqn:Hw; [|split; [exact H|reflexivity]].
    destruct (Z.eqb (readyState w) 1); [|split; [exact H|reflexivity]].
    split; [apply set_conn_no_id; [exact H|exact (H c w Hw)]|reflexivity].
  - destruct (wsConns s !! c) as [w|]; [|split; [exact H|reflexivity]].
    destruct (Z.eqb (readyState w) 1); [|split; [exact H|reflexivity]].
    assert (H1 : no_id_conns (set_conn s c (mkConn 1 (isAlive w) mid)))
      by (apply set_conn_no_id; [exact H|exact He]).
    destruct mid as [m|]; [rewrite He|];
      (split; [apply on_close_no_id; exact H1|rewrite on_close_db; reflexivity]).
  - destruct (wsConns s !! c) as [w|] eqn:Hw; [|split; [exact H|reflexivity]].
    destruct (Z.eqb (readyState w) 1); [|split; [exact H|reflexivity]].
    pose proof (H c w Hw) as Hid.
    destruct (machineId w) as [m|]; [|split; [exact H|reflexivity]].
    rewrite Hid. split; [exact H|reflexivity].
  - destruct (conn_open s c); [|split; [exact H|reflexivity]].
    split; [apply on_close_no_id, H|apply on_close_db].
  - apply fold_tick_no_id, H.
Qed.

(** X15.  As long as no socket authenticates with a non-empty id, no
    sequence of live channel events changes the registry. *)
Theorem ws_registry_needs_auth (s : Server) (evs : list WsEvent)
    (Hinit : forall c w, wsConns s !! c = Some w -> is_truthy_id (machineId w) = false)
    (Hno : Forall (fun e => match e with EvAuth _ mid => is_truthy_id mid = false | _ => True end) evs) :
  machinesDB (ws_run s evs) = machinesDB s.
Proof.
  unfold ws_run. revert s Hinit. induction Hno as [|e evs He _ IH]; intros s Hinit; [reflexivity|].
  simpl. destruct (ws_step_no_auth s e Hinit He) as [H1 H2].
  rewrite IH by exact H1. exact H2.
Qed.


(** X17.  The Stripe webhook forwards only events of [FORWARD_EVENTS], and
    both webhooks forward only to [http://<ip>:5001/...] where [ip] is the
    non-empty, colon-free host [getMachineIp] gives for a listed machine. *)
Theorem webhook_forward_targets (secret sig : string) (sigValid : bool) (event : option JVal)
    (payload : option JVal) (eventParam : option string) (machines : list JsObj) (fwd : FetchOutcome) :
  (forall r url et, stripe_webhook_post secret sig sigValid event machines fwd = (r, Some (url, et)) ->
     In et FORWARD_EVENTS /\
     exists m ip, In m machines /\ getMachineIp m = Some (Some ip) /\ ip <> "" /\
       has_char ":" ip = false /\ url = "http://" +:+ ip +:+ ":5001/stripe/webhook") /\
  (forall r url et, nayax_webhook_post payload eventParam machines fwd = (r, Some (url, et)) ->
     exists m ip, In m machines /\ getMachineIp m = Some (Some ip) /\ ip <> "" /\
       has_char ":" ip = false /\ url = "http://" +:+ ip +:+ ":5001/nayax/webhook").
Proof.
  split.
  - intros r url et H. unfold stripe_webhook_post in H.
    destruct (negb (String.eqb secret "") && negb (String.eqb sig "") && negb sigValid);
      [discriminate H|].
    destruct event as [ev|]; [|discriminate H].
    destruct ev as [| | | | |kvs]; try discriminate H; cbv zeta in H.
    match type of H with context [match ?x with Some et => _ | None => _ end] =>
      destruct x as [et'|]; [|discriminate H] end.
    destruct (existsb (String.eqb et') FORWARD_EVENTS) eqn:Ef; try discriminate H.
    match type of H with context [stripe_resolve machines et' ?d] =>
      destruct (stripe_resolve machines et' d) as [m|] eqn:Er; [|discriminate H] end.
    destruct (getMachineIp m) as [[ip|]|] eqn:Eip; try discriminate H.
    destruct (String.eqb ip "") eqn:Ee; try discriminate H.
    injection H as _ <- <-.
    split; [apply existsb_exists in Ef as (x & Hx & Ex); apply String.eqb_eq in Ex; subst x; exact Hx|].
    exists m, ip; split; [eapply stripe_resolve_in; exact Er|].
    split; [exact Eip|]; split; [apply String.eqb_neq, Ee|].
    split; [destruct (getMachineIp_some m ip Eip) as (? & _ & _ & Hc & _); exact Hc|reflexivity].
  - intros r url et H. unfold nayax_webhook_post in H.
    destruct payload as [[| | | | |]|]; try discriminate H;
    match type of H with context [findMachineByTerminalId machines ?t] =>
      destruct (findMachineByTerminalId machines t) as [m|] eqn:Er end; try discriminate H;
    destruct (getMachineIp m) as [[ip|]|] eqn:Eip; try discriminate H;
    destruct (String.eqb ip "") eqn:Ee; try discriminate H;
    destruct fwd; injection H as _ <- _;
    exists m, ip; (split; [eapply findMachineByTerminalId_in; exact Er|]);
    (split; [exact Eip|]); (split; [apply String.eqb_neq, Ee|]);
    (split; [destruct (getMachineIp_some m ip Eip) as (? & _ & _ & Hc & _); exact Hc|reflexivity]).
Qed.

Lemma processHeartbeat_wsc s mid' data now mid :
  db_lookup (machinesDB s) mid "wsConnected" = Some (JBool true) ->
  db_lookup (machinesDB (processHeartbeat s mid' data now)) mid "wsConnected" = Some (JBool true).
Proof.
  intros H. destruct (processHeartbeat_db s mid' data now) as (m' & -> & _ & Hm').
  unfold db_lookup in *. destruct (String.eqb mid mid') eqn:E.
  - apply String.eqb_eq in E. subst mid'. rewrite lookup_insert_eq. exact Hm'.
  - apply String.eqb_neq in E. rewrite lookup_insert_ne by congruence. exact H.
Qed.

Lemma ws_step_wsc s e mid :
  db_lookup (machinesDB s) mid "wsConnected" = Some (JBool true) ->
  db_lookup (machinesDB (ws_step s e)) mid "wsConnected" = Some (JBool true).
Proof.
  intros H. destruct e as [c|c|c mid'|c data fwd ua now|c|]; unfold ws_step.
  - destruct (wsConns s !! c); exact H.
  - destruct (wsConns s !! c) as [w|]; [destruct (Z.eqb (readyState w) 1)|]; exact H.
  - destruct (wsConns s !! c) as [w|]; [|exact H].
    destruct (Z.eqb (readyState w) 1); [|exact H].
    destruct mid' as [m|]; [destruct (is_truthy_id (Some m))|]; rewrite ?on_close_db; exact H.
  - destruct (wsConns s !! c) as [w|]; [|exact H].
    destruct (Z.eqb (readyState w) 1); [|exact H].
    destruct (machineId w) as [m|]; [|exact H].
    destruct (is_truthy_id (Some m)); [|exact H].
    destruct data as [[| | | | |kvs]|]; try exact H; apply processHeartbeat_wsc, H.
  - destruct (conn_open s c); [rewrite on_close_db|]; exact H.
  - unfold tick. rewrite fold_tick_db. exact H.
Qed.

(** X18.  Once a device has sent a heartbeat over its live channel, its
    entry keeps [wsConnected = true] through every later event, including
    the close of that socket and the ping timeout. *)
Theorem wsConnected_never_cleared (s : Server) (c : nat) (data : option JVal) (fwd ua : string)
    (now : Z) (evs : list WsEvent) (w : WsConn) (mid : string)
    (Hc : wsConns s !! c = Some w) (Hopen : readyState w = 1%Z) (Hid : machineId w = Some mid)
    (Hmid : mid <> "") (Hdata : data <> None) (Hnull : data <> Some JNull) :
  db_lookup (machinesDB (ws_run (ws_step s (EvHeartbeat c data fwd ua now)) evs)) mid "wsConnected" =
    Some (JBool true).
Proof.
  assert (H0 : db_lookup (machinesDB (ws_step s (EvHeartbeat c data fwd ua now))) mid "wsConnected" =
               Some (JBool true)).
  { unfold ws_step. rewrite Hc, Hopen, Hid. cbn [Z.eqb Pos.eqb].
    unfold is_truthy_id. apply String.eqb_neq in Hmid. rewrite Hmid. cbn [negb].
    destruct data as [[| | | | |kvs]|]; try congruence;
    match goal with |- context [processHeartbeat s mid ?d now] =>
      destruct (processHeartbeat_db s mid d now) as (m' & E & _ & Hm') end;
    cbn [send machinesDB]; unfold db_lookup; rewrite E, lookup_insert_eq; exact Hm'. }
  unfold ws_run. generalize dependent (ws_step s (EvHeartbeat c data fwd ua now)).
  induction evs as [|e evs IH]; intros s' H; [exact H|]. simpl. apply IH, ws_step_wsc, H.
Qed.

Lemma verifyStripeSignature_standard_header_witness :
  verifyStripeSignature (fun _ _ => "5257a869") "{}" ("t=" +:+ "1700000000" +:+ ",v1=" +:+ "5257a869")
    "whsec_1" 1700000100000 = true.
Proof.
  rewrite (verifyStripeSignature_standard_header (fun _ _ => "5257a869") "{}" "whsec_1" 1700000100000
             "1700000000" "5257a869") by reflexivity.
  vm_compute. reflexivity.
Defined.

Lemma stripe_webhook_rejects_unsigned_witness :
  verifyStripeSignature (fun _ _ => "5257a869") "{}" "5257a869" "whsec_1" 1700000100000 = false /\
  stripe_webhook_post "whsec_1" "5257a869"
    (verifyStripeSignature (fun _ _ => "5257a869") "{}" "5257a869" "whsec_1" 1700000100000)
    None [] FetchError = (Resp 400 (JObj [("error", JStr "Invalid signature")]), None).
Proof.
  apply stripe_webhook_rejects_unsigned; [discriminate|discriminate|].
  left. vm_compute. repeat constructor; discriminate.
Defined.


Lemma buildEnvFile_readerId_injects_line_witness :
  nth_error (split_char (ascii_of_nat 10) (buildEnvFile cfg_inject "dev-1")) 6 =
    Some "STRIPE_SIMULATION=0".
Proof.
  rewrite (buildEnvFile_readerId_injects_line cfg_inject "dev-1" "tmr_1" "STRIPE_SIMULATION=0")
    by reflexivity.
  reflexivity.
Defined.


Lemma createSession_valid_for_seven_days_witness :
  getSession (createSession sess1 (mkUser "u2" "a@b" "A" "admin" "0") "tok-b" 0).1 (Some "tok-b") None
    604800000 = (Some (mkUser "u2" "a@b" "A" "admin" "0"),
                 (createSession sess1 (mkUser "u2" "a@b" "A" "admin" "0") "tok-b" 0).1).
Proof.
  pose proof (createSession_valid_for_seven_days sess1 (mkUser "u2" "a@b" "A" "admin" "0") "tok-b" 0
                None 604800000 ltac:(discriminate)) as H.
  simpl in H. destruct H as (_ & H & _). apply H. lia.
Defined.


Lemma machines_get_sound_witness :
  In (mkMock "shaka-0002" "offline" "Lyon, 69001" [("Shaka Classic", 3%Z); ("Shaka Mango", 0%Z)]) mock1 /\
  exists kv, In kv [("Shaka Classic", 3%Z); ("Shaka Mango", 0%Z)] /\ (kv.2 < 5)%Z.
Proof.
  destruct (machines_get_sound mock1 (Some "offline") (Some "LYON") (Some "true")
              (mkMock "shaka-0002" "offline" "Lyon, 69001" [("Shaka Classic", 3%Z); ("Shaka Mango", 0%Z)]))
    as (H1 & _ & _ & H4).
  - vm_compute. left. reflexivity.
  - split; [exact H1|apply H4; reflexivity].
Defined.

Lemma heartbeat_route_inventory_merged_witness :
  exists m', (heartbeat_route_post {[ "dev-1" := dev1_inv ]} (Some hb_inv) 60000).2 !! "dev-1" = Some m' /\
    match obj_get m' "inventory" with Some i => js_get i "A" | None => None end = Some (JNum 3).
Proof.
  apply (heartbeat_route_inventory_merged {[ "dev-1" := dev1_inv ]} hb_inv 60000 "dev-1" dev1_inv
           [("A", JNum 3); ("B", JNum 7)] [("B", JNum 2)] "A").
  - reflexivity.
  - discriminate.
  - apply lookup_singleton_eq.
  - reflexivity.
  - reflexivity.
  - apply (bool_decide_unpack _). vm_compute. reflexivity.
  - apply (bool_decide_unpack _). vm_compute. reflexivity.
Defined.

Lemma getMachineIp_host_before_colon_witness :
  exists addr, rpi_address (Some dev_addr) = Some (JStr addr) /\ addr <> "" /\
    has_char ":" "10.0.0.7" = false /\
    exists rest, addr = "10.0.0.7" +:+ rest /\ (rest = "" \/ exists r, rest = String ":" r).
Proof. apply getMachineIp_host_before_colon. reflexivity. Defined.

Lemma computeUptime_fields_witness :
  exists d h m,
    computeUptime 0 93784000 = pretty d +:+ "j " +:+ pretty h +:+ "h " +:+ pretty m +:+ "m" /\
    (0 <= d)%Z /\ (0 <= h < 24)%Z /\ (0 <= m < 60)%Z /\
    (d * 86400000 + h * 3600000 + m * 60000 <= 93784000 - 0 <
     d * 86400000 + h * 3600000 + m * 60000 + 60000)%Z.
Proof. apply computeUptime_fields. lia. Defined.

Lemma queued_sync_delivered_by_next_check_witness :
  let '(r, s', _) := sync_products_post s_dev1 (Some admin) "dev-1"
                       (Some (JObj [("products", JArr [JStr "X"])])) 1000 in
  transport_of r = Some (JStr "http-pending") /\
  pending_sync_get (machinesDB s') "dev-1" =
    (json (JObj [("ok", JBool true); ("pending", JBool true);
                 ("products", JArr [JStr "X"]); ("queuedAt", JStr (isoString 1000))]),
     <[ "dev-1" := obj_delete (queue_command (new_machine "dev-1" None 0)
                                 (QSync (pendingSync_cmd [JStr "X"] 1000 admin))) "pendingSync"]>
       (machinesDB s')).
Proof.
  apply (queued_sync_delivered_by_next_check s_dev1 admin "dev-1" (new_machine "dev-1" None 0)
           (JObj [("products", JArr [JStr "X"])]) [JStr "X"] 1000); reflexivity.
Defined.


Lemma ws_registry_needs_auth_witness :
  machinesDB (ws_run server0 [EvConnect 1; EvAuth 1 (Some "");
                              EvHeartbeat 1 (Some (JObj [("status", JStr "online")])) "" "" 5;
                              EvClose 1; EvTick]) = machinesDB server0.
Proof.
  apply ws_registry_needs_auth.
  - intros c w H. discriminate H.
  - repeat constructor.
Defined.


Lemma wsConnected_never_cleared_witness :
  db_lookup (machinesDB (ws_run (ws_step s_ws1 (EvHeartbeat 1 (Some (JObj [])) "" "" 5))
                           [EvClose 1; EvTick])) "dev-1" "wsConnected" = Some (JBool true).
Proof.
  apply (wsConnected_never_cleared s_ws1 1 (Some (JObj [])) "" "" 5 [EvClose 1; EvTick]
           (mkConn 1 true (Some "dev-1")) "dev-1").
  - reflexivity.
  - reflexivity.
  - reflexivity.
  - discriminate.
  - discriminate.
  - discriminate.
Defined.
